(** * testmatrixcreator.py: the test matrix creator of the test result log

    A shallow embedding of [src/lib/testresultlog/testmatrixcreator.py]
    (class [TestEnvMatrixCreator]) and the properties of its methods.

    - Python [str] values are [string]s; [str.find] and slicing are
      written out with Python's index conventions ([-1] for "not found",
      negative indices counted from the end, clamping to the length).
    - Python [dict]s are finite maps ([gmap]) with string keys.
    - Effects ([print], [open]/[write], [subprocess.run], test discovery)
      are the nodes of a small free monad [prog]; a handler gives them a
      meaning on a world, and [run] also records the trace of calls that
      were made. Every call, [print] included, may answer with an
      exception; [returns] and [raises] speak of the runs in which no
      [print] raised.
    - The JSON encoder lives in another module of the package; it is the
      interface [TestEnvMatrixJsonEncoder], over which the statements that
      need it are generic. *)

From Stdlib Require Import ZArith String Ascii List Lia.
From stdpp Require Import base option list gmap strings fin_maps.

Set Warnings "-register-all".
Set Default Proof Using "Type".

Open Scope string_scope.
Open Scope list_scope.
Open Scope Z_scope.

(** ** Python string primitives *)

Module Py.

(** [s.find(sub)] scanning from offset [i]: the lowest index at which
    [sub] occurs, or [-1]. *)
Fixpoint find_from (sub s : string) (i : Z) : Z :=
  if String.prefix sub s then i
  else match s with
       | EmptyString => -1
       | String _ s' => find_from sub s' (i + 1)
       end.

Definition find (s sub : string) : Z := find_from sub s 0.

(** Index adjustment of a slice bound ([PySlice_AdjustIndices], step 1). *)
Definition adjust_index (len i : Z) : Z :=
  if i <? 0 then Z.max (i + len) 0 else Z.min i len.

(** [s[start:stop]]; [None] is an omitted bound. *)
Definition slice (s : string) (start stop : option Z) : string :=
  let len := Z.of_nat (String.length s) in
  let lo := match start with Some i => adjust_index len i | None => 0 end in
  let hi := match stop with Some j => adjust_index len j | None => len end in
  String.substring (Z.to_nat lo) (Z.to_nat (hi - lo)) s.

(** ['%s.%s' % (a, b)] *)
Definition format_dot (a b : string) : string := a +:+ "." +:+ b.

(** ['DEBUG: %s : <what> : %s' % (a, b)] *)
Definition format_debug (what a b : string) : string :=
  "DEBUG: " +:+ a +:+ " : " +:+ what +:+ " : " +:+ b.

(** Does the character occur in the string? *)
Fixpoint has_char (c : ascii) (s : string) : bool :=
  match s with
  | EmptyString => false
  | String a s' => if Ascii.eqb a c then true else has_char c s'
  end.

(** The part of a string before, and after, the first occurrence of a
    character. *)
Fixpoint before_char (c : ascii) (s : string) : string :=
  match s with
  | EmptyString => EmptyString
  | String a s' => if Ascii.eqb a c then EmptyString else String a (before_char c s')
  end.

Fixpoint after_char (c : ascii) (s : string) : string :=
  match s with
  | EmptyString => EmptyString
  | String a s' => if Ascii.eqb a c then s' else after_char c s'
  end.

(** The string without its last [n] characters. *)
Definition drop_last (n : nat) (s : string) : string :=
  String.substring 0 (String.length s - n) s.

End Py.

(** ** Values, exceptions and effects *)

(** The JSON-like values the creator builds. *)
Inductive pyval : Type :=
| PStr (s : string)
| PList (l : list pyval)
| PDict (d : gmap string pyval).

(** A discovered test tree: a test case (shown by [str] as [id]) or a
    suite, which is iterable. *)
Inductive test : Type :=
| TestCase (id : string)
| TestSuite (tests : list test).

Inductive exn : Type :=
| KeyError (key : string)
| TypeError (msg : string)
| AttributeError (msg : string)
| ValueError (msg : string)
| OSError (msg : string).

(** [subprocess.CompletedProcess] *)
Record CompletedProcess : Type := mkCompleted {
  cp_args : list string;
  cp_returncode : Z
}.

(** An open text file object: the path it was opened on and its mode. *)
Record file : Type := mkFile {
  f_name : string;
  f_mode : string
}.

(** Calls into the environment, indexed by the type of their reply.
    Every call may answer with an exception: [print] too, on a standard
    output that is closed or broken. *)
Inductive event : Type -> Type :=
| Print (line : string) : event (exn + unit)
| Open (path mode : string) : event (exn + file)
| FileWrite (f : file) (data : string) : event (exn + Z)
| FileClose (f : file) : event (exn + unit)
| SubprocessRun (args : list string) : event (exn + CompletedProcess)
| LoaderDiscover (start_dir pattern : string) : event (exn + test).

Inductive call : Type :=
| Call {X : Type} (ev : event X).

(** Programs: return, raise, or perform a call and continue with its
    reply. *)
Inductive prog (A : Type) : Type :=
| Ret (a : A)
| Raise (e : exn)
| Vis {X : Type} (ev : event X) (k : X -> prog A).

Arguments Ret {A} a.
Arguments Raise {A} e.
Arguments Vis {A X} ev k.

Fixpoint bind {A B : Type} (p : prog A) (f : A -> prog B) : prog B :=
  match p with
  | Ret a => f a
  | Raise e => Raise e
  | Vis ev k => Vis ev (fun x => bind (k x) f)
  end.

#[global] Instance prog_ret : MRet prog := @Ret.
#[global] Instance prog_bind : MBind prog := fun A B f p => bind p f.

(** A call whose exceptional reply is raised. *)
Definition lift_reply {A : Type} (r : exn + A) : prog A :=
  match r with
  | inl e => Raise e
  | inr a => Ret a
  end.

Definition syscall {X : Type} (ev : event (exn + X)) : prog X :=
  Vis ev lift_reply.

(** [try: p finally: q] *)
Fixpoint finally {A : Type} (p : prog A) (q : prog unit) : prog A :=
  match p with
  | Ret a => _ ← q; Ret a
  | Raise e => _ ← q; Raise e
  | Vis ev k => Vis ev (fun x => finally (k x) q)
  end.

(** [with open(path, mode) as f: body f] *)
Definition with_open {A : Type} (path mode : string) (body : file -> prog A)
  : prog A :=
  f ← syscall (Open path mode);
  finally (body f) (syscall (FileClose f)).

(** A [for] loop threading the state its body updates. *)
Fixpoint for_each {A S : Type} (l : list A) (body : S -> A -> prog S) (s : S)
  : prog S :=
  match l with
  | [] => Ret s
  | x :: l' => s' ← body s x; for_each l' body s'
  end.

(** [d[key]] *)
Definition getitem {V : Type} (d : gmap string V) (key : string) : prog V :=
  match d !! key with
  | Some v => Ret v
  | None => Raise (KeyError key)
  end.

(** [d[key].append(x)] on a dictionary of values *)
Definition getitem_append (d : gmap string pyval) (key : string) (x : pyval)
  : prog (gmap string pyval) :=
  v ← getitem d key;
  match v with
  | PList l => Ret (<[key := PList (l ++ [x])]> d)
  | _ => Raise (AttributeError "append")
  end.

(** A handler answers every call and updates the world. *)
Definition handler (W : Type) : Type := forall X : Type, event X -> W -> X * W.

Record outcome (W A : Type) : Type := mkOutcome {
  result : exn + A;
  final : W;
  trace : list call
}.

Arguments mkOutcome {W A} result final trace.
Arguments result {W A} o.
Arguments final {W A} o.
Arguments trace {W A} o.

Fixpoint run {W A : Type} (h : handler W) (p : prog A) (w : W) : outcome W A :=
  match p with
  | Ret a => mkOutcome (inr a) w []
  | Raise e => mkOutcome (inl e) w []
  | Vis ev k =>
      let '(x, w') := h _ ev w in
      let o := run h (k x) w' in
      mkOutcome (result o) (final o) (Call ev :: trace o)
  end.

(** Did a [print] raise during the run? *)
Definition print_failed {X : Type} (ev : event X) : X -> bool :=
  match ev in event X return X -> bool with
  | Print _ => fun reply => match reply with inl _ => true | inr _ => false end
  | _ => fun _ => false
  end.

Fixpoint print_raised {W A : Type} (h : handler W) (p : prog A) (w : W) : bool :=
  match p with
  | Ret _ => false
  | Raise _ => false
  | Vis ev k =>
      let '(x, w') := h _ ev w in
      print_failed ev x || print_raised h (k x) w'
  end.

(** [p] returns [v], or raises [e], whatever the environment does, in
    every run in which no [print] raised. A program that prints nothing
    has no other run; what a failed [print] does to the name helpers is
    stated on [run] itself. *)
Definition returns {A : Type} (p : prog A) (v : A) : Prop :=
  forall (W : Type) (h : handler W) (w : W),
    print_raised h p w = false -> result (run h p w) = inr v.

Definition raises {A : Type} (p : prog A) (e : exn) : Prop :=
  forall (W : Type) (h : handler W) (w : W),
    print_raised h p w = false -> result (run h p w) = inl e.

(** ** A model of the operating system *)

Record world : Type := mkWorld {
  stdout : list string;
  files : gmap string string
}.

(** What the machine outside the program does: external commands and
    test discovery. *)
Record machine : Type := mkMachine {
  exec : list string -> world -> (exn + CompletedProcess) * world;
  discover : string -> string -> exn + test
}.

Definition set_files (w : world) (fs : gmap string string) : world :=
  mkWorld (stdout w) fs.

(** [open]: mode ['r'] needs the file, ['w'] truncates or creates it,
    ['a'] creates it when missing and keeps what it holds. *)
Definition os_open (path mode : string) (w : world) : (exn + file) * world :=
  if String.eqb mode "r" then
    match files w !! path with
    | Some _ => (inr (mkFile path mode), w)
    | None => (inl (OSError "No such file or directory"), w)
    end
  else if String.eqb mode "w" then
    (inr (mkFile path mode), set_files w (<[path := ""]> (files w)))
  else if String.eqb mode "a" then
    match files w !! path with
    | Some _ => (inr (mkFile path mode), w)
    | None => (inr (mkFile path mode), set_files w (<[path := ""]> (files w)))
    end
  else (inl (ValueError "invalid mode"), w).

(** [write]: refused on a file opened for reading; otherwise the data goes
    to the end of the file. *)
Definition os_write (f : file) (data : string) (w : world) : (exn + Z) * world :=
  if String.eqb (f_mode f) "r" then (inl (OSError "not writable"), w)
  else
    let old := default "" (files w !! f_name f) in
    (inr (Z.of_nat (String.length data)),
     set_files w (<[f_name f := old +:+ data]> (files w))).

Definition os_handler (m : machine) : handler world :=
  fun X ev =>
    match ev in event X return world -> X * world with
    | Print line => fun w => (inr tt, mkWorld (stdout w ++ [line]) (files w))
    | Open path mode => os_open path mode
    | FileWrite f data => os_write f data
    | FileClose f => fun w => (inr tt, w)
    | SubprocessRun args => fun w => exec m args w
    | LoaderDiscover start_dir pattern =>
        fun w => (discover m start_dir pattern, w)
    end.

(** ** The encoder interface

    [testresultlog.testmatrixjsonencoder.TestEnvMatrixJsonEncoder] is
    imported by the module; only its [start_encode] method is used. *)
Class TestEnvMatrixJsonEncoder : Type := {
  start_encode : pyval -> string
}.

(** ** class TestEnvMatrixCreator *)

Module TestEnvMatrixCreator.

(** [unittest.suite._isnotsuite]: a test is a suite when it is iterable. *)
Definition _isnotsuite (t : test) : bool :=
  match t with
  | TestCase _ => true
  | TestSuite _ => false
  end.

(** [str(test)]: the items of the lists below are strings, which [str]
    leaves as they are. *)
Definition str (s : string) : string := s.

(** The generator, as the list of the values it yields, or the exception
    that ends it: iterating a test that is not a suite is a [TypeError].
    The inner [loop] is the [for] over the tests of the suite. *)
Fixpoint _generate_flat_list_of_test_module_function (test_suite : test)
  : exn + list test :=
  match test_suite with
  | TestCase _ => inl (TypeError "object is not iterable")
  | TestSuite tests =>
      (fix loop (l : list test) : exn + list test :=
         match l with
         | [] => inr []
         | t :: rest =>
             match (if _isnotsuite t then inr [t]
                    else _generate_flat_list_of_test_module_function t) with
             | inl e => inl e
             | inr yielded =>
                 match loop rest with
                 | inl e => inl e
                 | inr more => inr (yielded ++ more)
                 end
             end
         end) tests
  end.

Definition _get_test_module_name (t : string) : prog string :=
  let test_module_name :=
    Py.slice t (Some (Py.find t "(" + 1)) (Some (Py.find t ")")) in
  _ ← syscall (Print (Py.format_debug "module" t test_module_name));
  Ret test_module_name.

Definition _get_test_function_name (t : string) : prog string :=
  let test_function_name := Py.slice t (Some 0) (Some (Py.find t "(" - 1)) in
  _ ← syscall (Print (Py.format_debug "function" t test_function_name));
  Ret test_function_name.

Definition _get_test_module_name_from_key (key : string) : prog string :=
  let test_module_name := Py.slice key (Some 0) (Some (Py.find key ".")) in
  Ret test_module_name.

Definition _get_test_class_name_from_key (key : string) : prog string :=
  let test_class_name := Py.slice key (Some (Py.find key "." + 1)) None in
  Ret test_class_name.

Definition _create_testcase_list (testcase_list : list string)
    (testsuite_name : string) : prog (list pyval) :=
  for_each testcase_list
    (fun testcaselist testcase =>
       let testcase_dict : gmap string pyval := ∅ in
       let testcase_dict :=
         <["testcasename" := PStr (Py.format_dot testsuite_name testcase)]>
           testcase_dict in
       let testcase_dict := <["testresult" := PStr ""]> testcase_dict in
       let testcase_dict := <["testlog" := PStr ""]> testcase_dict in
       Ret (testcaselist ++ [PDict testcase_dict]))
    [].

Definition _create_testsuite_testcase_list (testsuite_list : list string)
    (test_module_func_dict : gmap string (list string))
  : prog (gmap string pyval) :=
  for_each testsuite_list
    (fun json_object testsuite =>
       let testsuite_dict : gmap string pyval := ∅ in
       let testsuite_dict :=
         <["testsuitename" := PStr testsuite]> testsuite_dict in
       testcase_list ← getitem test_module_func_dict testsuite;
       testcases ← _create_testcase_list testcase_list testsuite;
       let testsuite_dict := <["testcase" := PList testcases]> testsuite_dict in
       getitem_append json_object "testsuite" (PDict testsuite_dict))
    {["testsuite" := PList []]}.

Definition load_test_module_and_test_function (test_dir : string)
  : prog (exn + list test) :=
  test_suite ← syscall (LoaderDiscover test_dir "*.py");
  Ret (_generate_flat_list_of_test_module_function test_suite).

Definition generate_test_moduleclass_key_test_function_value_dictionary
    (test_module_function_list : list string)
  : prog (gmap string (list string)) :=
  let test_module_func_dict : gmap string (list string) := ∅ in
  _ ← syscall (Print "DEBUG: start generate matrix");
  for_each test_module_function_list
    (fun test_module_func_dict t =>
       key ← _get_test_module_name (str t);
       value ← _get_test_function_name (str t);
       match test_module_func_dict !! key with
       | Some values => Ret (<[key := values ++ [value]]> test_module_func_dict)
       | None => Ret (<[key := [value]]> test_module_func_dict)
       end)
    test_module_func_dict.

Definition generate_test_module_key_test_moduleclass_value_dictionary
    (module_class_list : list string) : prog (gmap string (list string)) :=
  let test_module_class_dict : gmap string (list string) := ∅ in
  for_each module_class_list
    (fun test_module_class_dict module_class =>
       module_name ← _get_test_module_name_from_key module_class;
       class_part ← _get_test_class_name_from_key module_class;
       let class_name := Py.format_dot module_name class_part in
       match test_module_class_dict !! module_name with
       | Some classes =>
           Ret (<[module_name := classes ++ [class_name]]>
                  test_module_class_dict)
       | None => Ret (<[module_name := [class_name]]> test_module_class_dict)
       end)
    test_module_class_dict.

Definition generate_testsuite_testcase_json_data_structure
    `{encoder : TestEnvMatrixJsonEncoder}
    (testsuites_list : list string)
    (test_module_func_dict : gmap string (list string)) : prog string :=
  testsuite_testcase_list ←
    _create_testsuite_testcase_list testsuites_list test_module_func_dict;
  Ret (start_encode (PDict testsuite_testcase_list)).

Definition write_testsuite_testcase_json_data_structure_to_file
    (file_path file_content : string) : prog unit :=
  with_open file_path "a"
    (fun the_file => _ ← syscall (FileWrite the_file file_content); Ret tt).

Definition push_testsuite_testcase_json_file_to_git_repo
    (file_dir git_repo : string) : prog CompletedProcess :=
  syscall (SubprocessRun ["oe-git-archive"; file_dir; "-g"; git_repo]).

End TestEnvMatrixCreator.

(** ** Vocabulary of the statements *)

(** A machine on which every command exits with status 0 and changes
    nothing, and discovery finds no test; and a world with no file. *)
Definition idle_machine : machine :=
  mkMachine (fun args w => (inr (mkCompleted args 0), w))
            (fun _ _ => inr (TestSuite [])).

Definition empty_world : world := mkWorld [] ∅.

(** The idle machine with its standard output closed: every [print]
    raises, as Python does on a closed file. *)
Definition closed_stdout_handler : handler world :=
  fun X ev =>
    match ev in event X return world -> X * world with
    | Print _ =>
        fun w => (inl (ValueError "I/O operation on closed file"), w)
    | ev' => os_handler idle_machine _ ev'
    end.

(** The entry built for a test function of a suite, for a suite, and the
    whole object. *)
Definition testcase_entry (suite func : string) : pyval :=
  PDict {[ "testcasename" := PStr (suite +:+ "." +:+ func);
           "testresult" := PStr "";
           "testlog" := PStr "" ]}.

Definition testsuite_entry (d : gmap string (list string)) (suite : string)
  : pyval :=
  PDict {[ "testsuitename" := PStr suite;
           "testcase" := PList (map (testcase_entry suite) (default [] (d !! suite))) ]}.

Definition testsuite_object (l : list string) (d : gmap string (list string))
  : gmap string pyval :=
  {[ "testsuite" := PList (map (testsuite_entry d) l) ]}.

(** The object under construction, holding the suites built so far. *)
Definition suites (acc : list pyval) : gmap string pyval :=
  {["testsuite" := PList acc]}.

(** The module-name and function-name slices of a test string. *)
Definition test_module_name (t : string) : string :=
  Py.slice t (Some (Py.find t "(" + 1)) (Some (Py.find t ")")).

Definition test_function_name (t : string) : string :=
  Py.slice t (Some 0) (Some (Py.find t "(" - 1)).

(** The module part and the class part sliced from a key, and the class
    name rebuilt from them. *)
Definition key_module_name (key : string) : string :=
  Py.slice key (Some 0) (Some (Py.find key ".")).

Definition key_class_name (key : string) : string :=
  Py.slice key (Some (Py.find key "." + 1)) None.

Definition key_rebuilt (key : string) : string :=
  Py.format_dot (key_module_name key) (key_class_name key).

(** Grouping: one step of the loop that files [value] under [key]; the
    values that a list of items files under a key, in encounter order;
    the lookup of a group, absent when nothing was filed; and the number
    of values a dictionary stores. *)
Definition file_under (key value : string) (d : gmap string (list string))
  : gmap string (list string) :=
  match d !! key with
  | Some values => <[key := values ++ [value]]> d
  | None => <[key := [value]]> d
  end.

Definition file_all (K V : string -> string) (items : list string)
    (d : gmap string (list string)) : gmap string (list string) :=
  fold_left (fun d t => file_under (K t) (V t) d) items d.

Definition values_under (K V : string -> string) (k : string)
    (items : list string) : list string :=
  map V (filter (fun t => K t = k) items).

Definition group (values : list string) : option (list string) :=
  match values with
  | [] => None
  | _ :: _ => Some values
  end.

Definition total_values (d : gmap string (list string)) : nat :=
  map_fold (fun _ values n => (length values + n)%nat) 0%nat d.

(** All the nodes of a test tree, depth first and left to right, a node
    before its children. *)
Fixpoint preorder (t : test) : list test :=
  t :: match t with
       | TestCase _ => []
       | TestSuite tests => flat_map preorder tests
       end.

(** The [write] calls of a trace: the file written and the data. *)
Definition written (c : call) : option (file * string) :=
  match c with
  | Call ev =>
      match ev with
      | FileWrite f data => Some (f, data)
      | _ => None
      end
  end.

Definition writes_of (tr : list call) : list (file * string) :=
  omap written tr.

(** An encoder to run examples with. *)
Definition blank_encoder : TestEnvMatrixJsonEncoder :=
  {| start_encode := fun _ => "{}" |}.

(** The lines printed in a trace, and the lines the dictionary builder
    prints for a list of test strings. *)
Definition printed (c : call) : option string :=
  match c with
  | Call ev =>
      match ev with
      | Print line => Some line
      | _ => None
      end
  end.

Definition debug_lines_of (t : string) : list string :=
  [Py.format_debug "module" t (test_module_name t);
   Py.format_debug "function" t (test_function_name t)].

Definition debug_lines (tests : list string) : list string :=
  "DEBUG: start generate matrix" :: flat_map debug_lines_of tests.

(** A program prints the lines [ls] when, in every run in which no
    [print] raised, its calls are exactly the [print]s of those lines, in
    order. *)
Definition prints {A : Type} (p : prog A) (ls : list string) : Prop :=
  forall (W : Type) (h : handler W) (w : W),
    print_raised h p w = false ->
    trace (run h p w) = map (fun line => Call (Print line)) ls.

(** A program is silent when it calls nothing and leaves the world as it
    found it, whatever the environment. *)
Definition silent {A : Type} (p : prog A) : Prop :=
  forall (W : Type) (h : handler W) (w : W),
    trace (run h p w) = [] /\ final (run h p w) = w.

(** * Properties *)

Import Py TestEnvMatrixCreator.

(** ** Strings *)

Module PyFacts.

Lemma prefix_nil (s : string) : String.prefix "" s = true.
Proof. by destruct s. Qed.

Lemma prefix_char (c a : ascii) (s : string) :
  String.prefix (String c "") (String a s) = Ascii.eqb a c.
Proof.
  simpl. rewrite prefix_nil.
  destruct (ascii_dec c a) as [->|Hne].
  - by rewrite Ascii.eqb_refl.
  - symmetry. apply Ascii.eqb_neq. congruence.
Qed.

Lemma app_cons (c : ascii) (a b : string) :
  String c a +:+ b = String c (a +:+ b).
Proof. reflexivity. Qed.

Lemma app_assoc (a b c : string) : (a +:+ b) +:+ c = a +:+ b +:+ c.
Proof. induction a as [|x a IH]; [done|]. by rewrite !app_cons, IH. Qed.

Lemma length_app (a b : string) :
  String.length (a +:+ b) = (String.length a + String.length b)%nat.
Proof. induction a as [|c a IH]; simpl; [done | by rewrite IH]. Qed.

Lemma find_from_absent (c : ascii) (s : string) (i : Z) :
  has_char c s = false → find_from (String c "") s i = -1.
Proof.
  revert i. induction s as [|a s IH]; intros i H; [done|].
  cbn [find_from]. rewrite prefix_char. simpl in H.
  destruct (Ascii.eqb a c); [done | by apply IH].
Qed.

Lemma find_from_first (c : ascii) (a b : string) (i : Z) :
  has_char c a = false →
  find_from (String c "") (a +:+ String c b) i = i + Z.of_nat (String.length a).
Proof.
  revert i. induction a as [|x a IH]; intros i H.
  - change ("" +:+ String c b) with (String c b).
    cbn [find_from]. rewrite prefix_char, Ascii.eqb_refl. simpl. lia.
  - simpl in H. change (String x a +:+ String c b) with (String x (a +:+ String c b)).
    cbn [find_from]. rewrite prefix_char.
    destruct (Ascii.eqb x c); [done|]. rewrite IH by done.
    cbn [String.length]. lia.
Qed.

Lemma substring_zero (n : nat) (s : string) : String.substring n 0 s = "".
Proof. revert n. induction s as [|c s IH]; intros [|n]; simpl; auto. Qed.

Lemma substring_prefix (a b : string) :
  String.substring 0 (String.length a) (a +:+ b) = a.
Proof.
  induction a as [|c a IH]; simpl.
  - apply substring_zero.
  - by rewrite IH.
Qed.

Lemma substring_skip (a s : string) (n m : nat) :
  String.substring (String.length a + n) m (a +:+ s) = String.substring n m s.
Proof. induction a as [|c a IH]; simpl; [done | apply IH]. Qed.

Lemma substring_all (s : string) (m : nat) :
  (String.length s ≤ m)%nat → String.substring 0 m s = s.
Proof.
  revert m. induction s as [|c s IH]; intros [|m] H; simpl in *; try done; try lia.
  rewrite IH; [done | lia].
Qed.
Lemma adjust_index_in_range (len i : Z) : 0 ≤ i ≤ len → adjust_index len i = i.
Proof. intros H. unfold adjust_index. destruct (Z.ltb_spec i 0); lia. Qed.

Lemma slice_middle (a b c : string) (lo hi : Z) :
  lo = Z.of_nat (String.length a) →
  hi = Z.of_nat (String.length a + String.length b) →
  slice (a +:+ b +:+ c) (Some lo) (Some hi) = b.
Proof.
  intros -> ->. unfold slice. rewrite !length_app.
  rewrite !adjust_index_in_range by lia.
  replace (Z.to_nat (Z.of_nat (String.length a)))
    with (String.length a + 0)%nat by lia.
  replace (Z.to_nat _) with (String.length b) by lia.
  rewrite substring_skip. apply substring_prefix.
Qed.

Lemma slice_prefix (a b : string) (hi : Z) :
  hi = Z.of_nat (String.length a) → slice (a +:+ b) (Some 0) (Some hi) = a.
Proof. intros ->. apply (slice_middle "" a b); simpl; lia. Qed.

Lemma slice_suffix (a b : string) (lo : Z) :
  lo = Z.of_nat (String.length a) → slice (a +:+ b) (Some lo) None = b.
Proof.
  intros ->. unfold slice. rewrite length_app.
  rewrite adjust_index_in_range by lia.
  replace (Z.to_nat (Z.of_nat (String.length a)))
    with (String.length a + 0)%nat by lia.
  rewrite substring_skip. apply substring_all. lia.
Qed.

Lemma slice_drop_last (s : string) (n : nat) :
  (0 < n)%nat → slice s (Some 0) (Some (- Z.of_nat n)) = drop_last n s.
Proof.
  intros Hn. unfold slice, drop_last, adjust_index.
  change (0 <? 0) with false. cbv iota.
  destruct (Z.ltb_spec (- Z.of_nat n) 0); [|lia].
  rewrite Z.min_l by lia. change (Z.to_nat 0) with 0%nat. f_equal. lia.
Qed.

Lemma split_at_first (c : ascii) (s : string) :
  has_char c s = true →
  s = before_char c s +:+ String c (after_char c s) ∧
  has_char c (before_char c s) = false.
Proof.
  induction s as [|a s IH]; simpl; [done|].
  destruct (Ascii.eqb_spec a c) as [->|Hne]; intros H.
  - done.
  - destruct (IH H) as [Heq Hno]. split.
    + rewrite app_cons. by f_equal.
    + simpl. by destruct (Ascii.eqb_spec a c).
Qed.

Lemma has_char_app (c : ascii) (a b : string) :
  has_char c (a +:+ b) = has_char c a || has_char c b.
Proof. induction a as [|x a IH]; simpl; [done|]. by destruct (Ascii.eqb x c). Qed.

End PyFacts.

Section RunFacts.
Context {W : Type} (h : handler W).

Lemma result_bind {A B : Type} (p : prog A) (f : A → prog B) (w : W) :
  result (run h (bind p f) w) =
  match result (run h p w) with
  | inl e => inl e
  | inr a => result (run h (f a) (final (run h p w)))
  end.
Proof.
  revert w. induction p as [a|e|X ev k IH]; intros w; simpl; [done..|].
  destruct (h X ev w) as [x w']. simpl. apply IH.
Qed.

Lemma print_raised_bind {A B : Type} (p : prog A) (f : A → prog B) (w : W) :
  print_raised h (bind p f) w =
  print_raised h p w ||
  match result (run h p w) with
  | inl e => false
  | inr a => print_raised h (f a) (final (run h p w))
  end.
Proof.
  revert w. induction p as [a|e|X ev k IH]; intros w; simpl; [done..|].
  destruct (h X ev w) as [x w']. simpl. by rewrite IH, orb_assoc.
Qed.

End RunFacts.

Lemma os_print_never_raised {A : Type} (m : machine) (p : prog A) (w : world) :
  print_raised (os_handler m) p w = false.
Proof.
  revert w. induction p as [a|e|X ev k IH]; intros w; [done..|].
  cbn. destruct (os_handler m X ev w) as [x w'] eqn:Hstep.
  rewrite IH, orb_false_r. destruct ev; try done.
  cbn in Hstep. by injection Hstep as <- _.
Qed.

Lemma returns_ret {A : Type} (a : A) : returns (Ret a) a.
Proof. by intros W h w _. Qed.

Lemma raises_raise {A : Type} (e : exn) : raises (@Raise A e) e.
Proof. by intros W h w _. Qed.

Lemma returns_eq {A : Type} (p : prog A) (a b : A) :
  returns p a → a = b → returns p b.
Proof. by intros H <-. Qed.

Lemma returns_print (line : string) : returns (syscall (Print line)) tt.
Proof.
  intros W h w. unfold syscall. simpl.
  by destruct (h _ (Print line) w) as [[e|[]] w'].
Qed.

Lemma returns_bind {A B : Type} (p : prog A) (f : A → prog B) (a : A) (b : B) :
  returns p a → returns (f a) b → returns (bind p f) b.
Proof.
  intros Hp Hf W h w Hno. rewrite print_raised_bind in Hno.
  apply orb_false_elim in Hno as [Hno1 Hno2].
  rewrite result_bind. rewrite (Hp W h w Hno1) in Hno2 |- *. by apply Hf.
Qed.

Lemma raises_bind_l {A B : Type} (p : prog A) (f : A → prog B) (e : exn) :
  raises p e → raises (bind p f) e.
Proof.
  intros Hp W h w Hno. rewrite print_raised_bind in Hno.
  apply orb_false_elim in Hno as [Hno1 _].
  by rewrite result_bind, (Hp W h w Hno1).
Qed.

Lemma raises_bind_r {A B : Type} (p : prog A) (f : A → prog B) (a : A) (e : exn) :
  returns p a → raises (f a) e → raises (bind p f) e.
Proof.
  intros Hp Hf W h w Hno. rewrite print_raised_bind in Hno.
  apply orb_false_elim in Hno as [Hno1 Hno2].
  rewrite result_bind. rewrite (Hp W h w Hno1) in Hno2 |- *. by apply Hf.
Qed.

(** Loop rules. The loop state is seen through a representation [mk]
    of an abstract state that a pure step function [g] updates. *)
Lemma for_each_returns {A S T : Type} (mk : T → S) (body : S → A → prog S)
    (g : T → A → T) (l : list A) (t : T) :
  (∀ t x, x ∈ l → returns (body (mk t) x) (mk (g t x))) →
  returns (for_each l body (mk t)) (mk (fold_left g l t)).
Proof.
  revert t. induction l as [|x l IH]; intros t Hbody; simpl.
  - apply returns_ret.
  - apply returns_bind with (mk (g t x)).
    + apply Hbody. by left.
    + apply IH. intros t' y Hy. apply Hbody. by right.
Qed.

Lemma for_each_raises {A S T : Type} (mk : T → S) (body : S → A → prog S)
    (g : T → A → T) (l1 l2 : list A) (x : A) (t : T) (e : exn) :
  (∀ t y, y ∈ l1 → returns (body (mk t) y) (mk (g t y))) →
  (∀ t, raises (body (mk t) x) e) →
  raises (for_each (l1 ++ x :: l2) body (mk t)) e.
Proof.
  revert t. induction l1 as [|y l1 IH]; intros t Hbody Hx; simpl in *.
  - by apply raises_bind_l.
  - apply raises_bind_r with (mk (g t y)).
    + apply Hbody. by left.
    + apply IH; [|done]. intros t' z Hz. apply Hbody. by right.
Qed.

Lemma fold_left_snoc_map {A B : Type} (F : A → B) (l : list A) (acc : list B) :
  fold_left (fun acc x => acc ++ [F x]) l acc = acc ++ map F l.
Proof.
  revert acc. induction l as [|x l IH]; intros acc; simpl.
  - by rewrite app_nil_r.
  - by rewrite IH, <- List.app_assoc.
Qed.

(** ** The name helpers *)

Section Names.
Import PyFacts.

Lemma get_test_module_name_returns (t : string) :
  returns (_get_test_module_name t) (test_module_name t).
Proof.
  unfold _get_test_module_name. apply returns_bind with tt.
  - apply returns_print.
  - apply returns_ret.
Qed.

Lemma get_test_function_name_returns (t : string) :
  returns (_get_test_function_name t) (test_function_name t).
Proof.
  unfold _get_test_function_name. apply returns_bind with tt.
  - apply returns_print.
  - apply returns_ret.
Qed.

Lemma returns_inj {A : Type} (p : prog A) (a b : A) :
  returns p a → returns p b → a = b.
Proof.
  intros Ha Hb.
  specialize (Ha world (os_handler idle_machine) empty_world
                 (os_print_never_raised idle_machine _ _)).
  specialize (Hb world (os_handler idle_machine) empty_world
                 (os_print_never_raised idle_machine _ _)).
  congruence.
Qed.

Lemma find_open_paren (f rest : string) :
  has_char "(" f = false →
  find (f +:+ " (" +:+ rest) "(" = Z.of_nat (String.length f) + 1.
Proof.
  intros Hf. unfold find.
  replace (f +:+ " (" +:+ rest) with ((f +:+ " ") +:+ String "(" rest)
    by (by rewrite app_assoc).
  rewrite find_from_first.
  - rewrite length_app. simpl. lia.
  - rewrite has_char_app, Hf. done.
Qed.

(** C3 (amended). For a test string [f +:+ " (" +:+ mc +:+ ")"] whose
    function part [f] contains neither parenthesis and whose parenthesized
    part [mc] contains no parenthesis, [_get_test_module_name] returns
    [mc], the text strictly between the first ["("] and the first [")"],
    and [_get_test_function_name] returns [f], the text before the space
    that precedes the first ["("]. *)
Theorem conventional_form_names (f mc : string) :
  has_char "(" f = false →
  has_char ")" f = false →
  has_char "(" mc = false →
  has_char ")" mc = false →
  returns (_get_test_module_name (f +:+ " (" +:+ mc +:+ ")")) mc ∧
  returns (_get_test_function_name (f +:+ " (" +:+ mc +:+ ")")) f.
Proof.
  intros Hf1 Hf2 Hm1 Hm2.
  assert (Hopen : find (f +:+ " (" +:+ mc +:+ ")") "(" =
                  Z.of_nat (String.length f) + 1)
    by (by apply find_open_paren).
  assert (Hclose : find (f +:+ " (" +:+ mc +:+ ")") ")" =
                   Z.of_nat (String.length (f +:+ " (") + String.length mc)).
  { unfold find.
    replace (f +:+ " (" +:+ mc +:+ ")") with ((f +:+ " (" +:+ mc) +:+ String ")" "")
      by (by rewrite !app_assoc).
    rewrite find_from_first.
    - rewrite !length_app. lia.
    - rewrite !has_char_app, Hf2, Hm2. done. }
  split.
  - eapply returns_eq; [apply get_test_module_name_returns|].
    unfold test_module_name. rewrite Hopen, Hclose.
    replace (f +:+ " (" +:+ mc +:+ ")") with ((f +:+ " (") +:+ mc +:+ ")")
      by (by rewrite !app_assoc).
    apply slice_middle; [|done]. rewrite length_app. simpl. lia.
  - eapply returns_eq; [apply get_test_function_name_returns|].
    unfold test_function_name. rewrite Hopen. apply slice_prefix. lia.
Qed.

Lemma conventional_form_names_witness :
  returns (_get_test_module_name ("test_a" +:+ " (" +:+ "mod.Cls" +:+ ")")) "mod.Cls" ∧
  returns (_get_test_function_name ("test_a" +:+ " (" +:+ "mod.Cls" +:+ ")")) "test_a".
Proof. apply conventional_form_names; reflexivity. Defined.

(** C3 as stated asks only that the function part has no ["("]. With a
    [")"] in the function part the first [")"] comes before the first
    ["("], the slice is empty, and the module name is not returned:
    for ["a)b (m.C)"], [find "("] is 4 and [find ")"] is 1, and
    [test[5:1]] is the empty string. *)
Lemma function_part_with_close_paren :
  has_char "(" "a)b" = false ∧
  has_char "(" "m.C" = false ∧
  has_char ")" "m.C" = false ∧
  returns (_get_test_module_name ("a)b" +:+ " (" +:+ "m.C" +:+ ")")) "" ∧
  ¬ returns (_get_test_module_name ("a)b" +:+ " (" +:+ "m.C" +:+ ")")) "m.C".
Proof.
  assert (H : returns (_get_test_module_name ("a)b" +:+ " (" +:+ "m.C" +:+ ")")) "")
    by apply (get_test_module_name_returns "a)b (m.C)").
  repeat split; try reflexivity; [exact H|].
  intros H'. by pose proof (returns_inj _ _ _ H H').
Qed.

Lemma get_test_module_name_run {W : Type} (h : handler W) (w : W) (t : string) :
  let line := format_debug "module" t (test_module_name t) in
  let o := run h (_get_test_module_name t) w in
  trace o = [Call (Print line)] ∧
  result o = match (h _ (Print line) w).1 with
             | inl e => inl e
             | inr _ => inr (test_module_name t)
             end.
Proof.
  unfold _get_test_module_name, syscall. fold (test_module_name t). cbn.
  by destruct (h _ (Print _) w) as [[e|[]] w'].
Qed.

Lemma get_test_function_name_run {W : Type} (h : handler W) (w : W) (t : string) :
  let line := format_debug "function" t (test_function_name t) in
  let o := run h (_get_test_function_name t) w in
  trace o = [Call (Print line)] ∧
  result o = match (h _ (Print line) w).1 with
             | inl e => inl e
             | inr _ => inr (test_function_name t)
             end.
Proof.
  unfold _get_test_function_name, syscall. fold (test_function_name t). cbn.
  by destruct (h _ (Print _) w) as [[e|[]] w'].
Qed.

(** C10 as stated says that the helpers never raise. Each of them prints
    its debug line before it returns, and an exception of [print] leaves
    the helper: on a closed standard output both raise, for every input,
    here for a test string of the conventional form. *)
Lemma name_helpers_raise_on_closed_stdout :
  result (run closed_stdout_handler (_get_test_module_name "test_a (mod.Cls)")
            empty_world) =
    inl (ValueError "I/O operation on closed file") ∧
  result (run closed_stdout_handler (_get_test_function_name "test_a (mod.Cls)")
            empty_world) =
    inl (ValueError "I/O operation on closed file") ∧
  ¬ (∀ (t : string) (W : Type) (h : handler W) (w : W),
       ∃ name, result (run h (_get_test_module_name t) w) = inr name).
Proof.
  split; [reflexivity|]. split; [reflexivity|].
  intros Htotal.
  destruct (Htotal "test_a (mod.Cls)" world closed_stdout_handler empty_world)
    as [name Hname].
  discriminate Hname.
Qed.

(** C10 (amended). The slicing of [_get_test_module_name] and of
    [_get_test_function_name] never raises: in every environment each
    helper makes one call, the [print] of its debug line, and its result is
    the exception of that [print] when it raises and the sliced string
    otherwise. On a string without ["("], [_get_test_function_name] then
    returns the input without its last two characters (the slice is
    [[0:-2]]), and [_get_test_module_name] returns the text before the
    first [")"], or the input without its last character when there is no
    [")"] either. *)
Theorem name_helpers_total_up_to_print (t : string) :
  (∀ (W : Type) (h : handler W) (w : W),
     let line := format_debug "module" t (test_module_name t) in
     let o := run h (_get_test_module_name t) w in
     trace o = [Call (Print line)] ∧
     result o = match (h _ (Print line) w).1 with
                | inl e => inl e
                | inr _ => inr (test_module_name t)
                end) ∧
  (∀ (W : Type) (h : handler W) (w : W),
     let line := format_debug "function" t (test_function_name t) in
     let o := run h (_get_test_function_name t) w in
     trace o = [Call (Print line)] ∧
     result o = match (h _ (Print line) w).1 with
                | inl e => inl e
                | inr _ => inr (test_function_name t)
                end) ∧
  (has_char "(" t = false →
   returns (_get_test_function_name t) (drop_last 2 t) ∧
   (has_char ")" t = true →
    returns (_get_test_module_name t) (before_char ")" t)) ∧
   (has_char ")" t = false →
    returns (_get_test_module_name t) (drop_last 1 t))).
Proof.
  split; [intros W h w; apply get_test_module_name_run|].
  split; [intros W h w; apply get_test_function_name_run|].
  intros Hopen.
  pose proof (get_test_module_name_returns t) as Hm.
  pose proof (get_test_function_name_returns t) as Hf.
  unfold test_module_name, test_function_name, find in Hm, Hf.
  rewrite (find_from_absent "(" t 0 Hopen) in Hm, Hf.
  change (-1 + 1) with 0 in Hm. change (-1 - 1) with (- Z.of_nat 2) in Hf.
  rewrite slice_drop_last in Hf by lia.
  split; [exact Hf|]. split; intros Hclose.
  - destruct (split_at_first ")" t Hclose) as [Heq Hno].
    rewrite Heq in Hm at 2 3.
    rewrite find_from_first in Hm by done.
    rewrite slice_prefix in Hm by lia. exact Hm.
  - rewrite (find_from_absent ")" t 0 Hclose) in Hm.
    change (-1) with (- Z.of_nat 1) in Hm.
    rewrite slice_drop_last in Hm by lia. exact Hm.
Qed.

Lemma name_helpers_total_up_to_print_witness :
  returns (_get_test_function_name "abc)def") "abc)d" ∧
  returns (_get_test_module_name "abc)def") "abc" ∧
  returns (_get_test_module_name "abcdef") "abcde".
Proof.
  destruct (name_helpers_total_up_to_print "abc)def") as (_ & _ & H1).
  destruct (H1 eq_refl) as (Hf & Hm & _).
  destruct (name_helpers_total_up_to_print "abcdef") as (_ & _ & H2).
  destruct (H2 eq_refl) as (_ & _ & Hm').
  exact (conj Hf (conj (Hm eq_refl) (Hm' eq_refl))).
Defined.
End Names.

(** ** The test-suite object *)

Section Structure.
Context `{encoder : TestEnvMatrixJsonEncoder}.

Lemma create_testcase_list_returns (fs : list string) (suite : string) :
  returns (_create_testcase_list fs suite) (map (testcase_entry suite) fs).
Proof.
  unfold _create_testcase_list.
  eapply returns_eq.
  - apply (for_each_returns id _ (fun acc f => acc ++ [testcase_entry suite f])).
    intros acc f _. apply returns_ret.
  - apply (fold_left_snoc_map (testcase_entry suite) fs []).
Qed.

Lemma getitem_present {V : Type} (d : gmap string V) (k : string) (v : V) :
  d !! k = Some v → returns (getitem d k) v.
Proof. intros H. unfold getitem. rewrite H. apply returns_ret. Qed.

Lemma getitem_missing {V : Type} (d : gmap string V) (k : string) :
  d !! k = None → raises (getitem d k) (KeyError k).
Proof. intros H. unfold getitem. rewrite H. apply raises_raise. Qed.

Lemma getitem_append_singleton (k : string) (acc : list pyval) (x : pyval) :
  returns (getitem_append {[k := PList acc]} k x) {[k := PList (acc ++ [x])]}.
Proof.
  unfold getitem_append. eapply returns_bind.
  - apply getitem_present, lookup_singleton_eq.
  - cbv beta iota. rewrite insert_singleton_eq. apply returns_ret.
Qed.

Lemma create_testsuite_testcase_list_returns (l : list string)
    (d : gmap string (list string)) :
  (∀ s, s ∈ l → is_Some (d !! s)) →
  returns (_create_testsuite_testcase_list l d) (testsuite_object l d).
Proof.
  intros Hkeys. unfold _create_testsuite_testcase_list.
  eapply returns_eq.
  - apply (for_each_returns suites _ (fun acc s => acc ++ [testsuite_entry d s])).
    intros acc s Hs. destruct (Hkeys s Hs) as [fs Hfs].
    eapply returns_bind; [by apply getitem_present|].
    eapply returns_bind; [apply create_testcase_list_returns|].
    eapply returns_eq; [apply getitem_append_singleton|].
    unfold suites, testsuite_entry. rewrite Hfs. reflexivity.
  - unfold suites, testsuite_object. by rewrite fold_left_snoc_map.
Qed.

Lemma create_testsuite_testcase_list_raises (l1 l2 : list string) (k : string)
    (d : gmap string (list string)) :
  (∀ s, s ∈ l1 → is_Some (d !! s)) →
  d !! k = None →
  raises (_create_testsuite_testcase_list (l1 ++ k :: l2) d) (KeyError k).
Proof.
  intros Hkeys Hk. unfold _create_testsuite_testcase_list.
  apply (for_each_raises suites _ (fun acc s => acc ++ [testsuite_entry d s])).
  - intros acc s Hs. destruct (Hkeys s Hs) as [fs Hfs].
    eapply returns_bind; [by apply getitem_present|].
    eapply returns_bind; [apply create_testcase_list_returns|].
    eapply returns_eq; [apply getitem_append_singleton|].
    unfold suites, testsuite_entry. rewrite Hfs. reflexivity.
  - intros acc. apply raises_bind_l. by apply getitem_missing.
Qed.

Lemma first_missing (l : list string) (d : gmap string (list string)) :
  (∀ s, s ∈ l → is_Some (d !! s)) ∨
  (∃ l1 k l2, l = l1 ++ k :: l2 ∧ (∀ s, s ∈ l1 → is_Some (d !! s)) ∧ d !! k = None).
Proof.
  induction l as [|x l IH].
  - left. intros s Hs. by apply elem_of_nil in Hs.
  - destruct (d !! x) as [fs|] eqn:Hx.
    + destruct IH as [IH|(l1 & k & l2 & -> & H1 & Hk)].
      * left. intros s [->|Hs]%elem_of_cons; [by eexists | by apply IH].
      * right. exists (x :: l1), k, l2. split; [done|]. split; [|done].
        intros s [->|Hs]%elem_of_cons; [by eexists | by apply H1].
    + right. exists [], x, l. split; [done|]. split; [|done].
      intros s Hs. by apply elem_of_nil in Hs.
Qed.

Lemma returns_not_raises {A : Type} (p : prog A) (a : A) (e : exn) :
  returns p a → raises p e → False.
Proof.
  intros Ha He.
  specialize (Ha world (os_handler idle_machine) empty_world
                 (os_print_never_raised idle_machine _ _)).
  specialize (He world (os_handler idle_machine) empty_world
                 (os_print_never_raised idle_machine _ _)).
  congruence.
Qed.

Example missing_suite_raises :
  raises (_create_testsuite_testcase_list ["suite_a"; "suite_b"; "suite_c"]
            {["suite_a" := ["test_x"]; "suite_c" := []]})
         (KeyError "suite_b").
Proof.
  apply (create_testsuite_testcase_list_raises ["suite_a"] ["suite_c"]).
  - intros s Hs. apply list_elem_of_singleton in Hs. subst s. by eexists.
  - reflexivity.
Qed.

(** C1. When every suite name of the list is a key of the dictionary,
    [_create_testsuite_testcase_list] returns the object
    [{'testsuite': [...]}] with one entry per suite name in list order,
    each with ['testsuitename'] the suite name and ['testcase'] the list,
    in order, of [{'testcasename': '<suite>.<function>', 'testresult': '',
    'testlog': ''}]; [generate_testsuite_testcase_json_data_structure]
    returns the encoding of that object. *)
Theorem testsuite_testcase_structure (l : list string)
    (d : gmap string (list string)) :
  (∀ s, s ∈ l → is_Some (d !! s)) →
  returns (_create_testsuite_testcase_list l d) (testsuite_object l d) ∧
  returns (generate_testsuite_testcase_json_data_structure l d)
          (start_encode (PDict (testsuite_object l d))).
Proof.
  intros Hkeys.
  pose proof (create_testsuite_testcase_list_returns l d Hkeys) as H.
  split; [exact H|].
  unfold generate_testsuite_testcase_json_data_structure.
  eapply returns_bind; [exact H | apply returns_ret].
Qed.


(** C9. [_create_testsuite_testcase_list], and with it
    [generate_testsuite_testcase_json_data_structure], returns a value
    exactly when every element of the suite list is a key of the
    dictionary; otherwise it raises [KeyError] on a missing element, so
    that no object, complete or partial, is returned. *)
Theorem create_succeeds_iff_keys_present (l : list string)
    (d : gmap string (list string)) :
  ((∃ v, returns (_create_testsuite_testcase_list l d) v) ↔
   (∀ s, s ∈ l → is_Some (d !! s))) ∧
  ((∃ v, returns (generate_testsuite_testcase_json_data_structure l d) v) ↔
   (∀ s, s ∈ l → is_Some (d !! s))) ∧
  (¬ (∀ s, s ∈ l → is_Some (d !! s)) →
   ∃ k, k ∈ l ∧ d !! k = None ∧
        raises (_create_testsuite_testcase_list l d) (KeyError k) ∧
        raises (generate_testsuite_testcase_json_data_structure l d) (KeyError k)).
Proof.
  destruct (first_missing l d) as [Hall|(l1 & k & l2 & -> & H1 & Hk)].
  - pose proof (create_testsuite_testcase_list_returns l d Hall) as H.
    repeat split; try done.
    + intros _. by eexists.
    + intros _. eexists. unfold generate_testsuite_testcase_json_data_structure.
      eapply returns_bind; [exact H | apply returns_ret].
  - pose proof (create_testsuite_testcase_list_raises l1 l2 k d H1 Hk) as H.
    assert (Hgen : raises (generate_testsuite_testcase_json_data_structure
                             (l1 ++ k :: l2) d) (KeyError k))
      by (by apply raises_bind_l).
    assert (Hnot : ¬ (∀ s, s ∈ l1 ++ k :: l2 → is_Some (d !! s))).
    { intros Hall. destruct (Hall k) as [fs Hfs]; [|congruence].
      apply elem_of_app. right. by left. }
    repeat split.
    + intros [v Hv]. destruct (returns_not_raises _ _ _ Hv H).
    + intros Hall. by destruct Hnot.
    + intros [v Hv]. destruct (returns_not_raises _ _ _ Hv Hgen).
    + intros Hall. by destruct Hnot.
    + intros _. exists k. repeat split; try done.
      apply elem_of_app. right. by left.
Qed.

End Structure.

Lemma testsuite_testcase_structure_witness :
  returns
    (_create_testsuite_testcase_list ["suite_a"]
       {["suite_a" := ["test_x"; "test_y"]]})
    (testsuite_object ["suite_a"] {["suite_a" := ["test_x"; "test_y"]]}) ∧
  returns
    (@generate_testsuite_testcase_json_data_structure blank_encoder
       ["suite_a"] {["suite_a" := ["test_x"; "test_y"]]})
    (@start_encode blank_encoder
       (PDict (testsuite_object ["suite_a"]
                 {["suite_a" := ["test_x"; "test_y"]]}))).
Proof.
  apply (@testsuite_testcase_structure blank_encoder).
  intros s Hs. apply list_elem_of_singleton in Hs. subst s. by eexists.
Defined.

Lemma create_succeeds_iff_keys_present_witness :
  ∃ k, k ∈ ["suite_a"; "suite_b"] ∧
       ({["suite_a" := ["test_x"]]} : gmap string (list string)) !! k = None ∧
       raises (_create_testsuite_testcase_list ["suite_a"; "suite_b"]
                 {["suite_a" := ["test_x"]]}) (KeyError k) ∧
       raises (@generate_testsuite_testcase_json_data_structure blank_encoder
                 ["suite_a"; "suite_b"] {["suite_a" := ["test_x"]]})
              (KeyError k).
Proof.
  destruct (@create_succeeds_iff_keys_present blank_encoder
              ["suite_a"; "suite_b"] {["suite_a" := ["test_x"]]})
    as (_ & _ & Hraises).
  apply Hraises. intros Hall.
  destruct (Hall "suite_b") as [fs Hfs]; [|discriminate Hfs].
  apply elem_of_cons. right. by left.
Defined.

(** ** Grouping into dictionaries *)

Section Grouping.
Variables K V : string → string.

Lemma file_all_lookup (items : list string) (d : gmap string (list string))
    (k : string) :
  file_all K V items d !! k =
  match d !! k with
  | Some values => Some (values ++ values_under K V k items)
  | None => group (values_under K V k items)
  end.
Proof.
  revert d. induction items as [|t items IH]; intros d.
  - simpl. destruct (d !! k); [by rewrite app_nil_r | done].
  - unfold file_all in *. cbn [fold_left]. rewrite IH. clear IH.
    unfold values_under, file_under. rewrite filter_cons.
    destruct (decide (K t = k)) as [<-|Hne].
    + destruct (d !! K t) as [values|] eqn:Hd.
      * rewrite lookup_insert_eq. cbn [map]. by rewrite <- List.app_assoc.
      * rewrite lookup_insert_eq. done.
    + destruct (d !! K t) as [values|] eqn:Hd; by rewrite lookup_insert_ne.
Qed.

Lemma total_values_insert_fresh (d : gmap string (list string)) (k : string)
    (values : list string) :
  d !! k = None →
  total_values (<[k := values]> d) = (length values + total_values d)%nat.
Proof.
  intros Hk. unfold total_values.
  rewrite map_fold_insert_L; [done| |done]. intros. lia.
Qed.

Lemma total_values_insert (d : gmap string (list string)) (k : string)
    (old values : list string) :
  d !! k = Some old →
  (total_values (<[k := values]> d) + length old =
   length values + total_values d)%nat.
Proof.
  intros Hk.
  rewrite <- (insert_delete_eq d k values).
  rewrite total_values_insert_fresh by apply lookup_delete_eq.
  rewrite <- (insert_delete_id d k old) at 2 by done.
  rewrite total_values_insert_fresh by apply lookup_delete_eq. lia.
Qed.

Lemma total_values_file_under (d : gmap string (list string)) (k v : string) :
  total_values (file_under k v d) = S (total_values d).
Proof.
  unfold file_under. destruct (d !! k) as [old|] eqn:Hk.
  - pose proof (total_values_insert d k old (old ++ [v]) Hk) as H.
    rewrite length_app in H. simpl in H. lia.
  - by rewrite total_values_insert_fresh.
Qed.

Lemma total_values_file_all (items : list string) (d : gmap string (list string)) :
  total_values (file_all K V items d) = (total_values d + length items)%nat.
Proof.
  revert d. induction items as [|t items IH]; intros d; simpl.
  - lia.
  - unfold file_all in *. cbn [fold_left]. rewrite IH, total_values_file_under. lia.
Qed.
End Grouping.

Section Dictionaries.
Import PyFacts.

Lemma group_elem_of (l : list string) (x : string) : x ∈ l → group l = Some l.
Proof. destruct l; [by intros ?%elem_of_nil | done]. Qed.

Lemma generate_moduleclass_dictionary_returns (tests : list string) :
  returns (generate_test_moduleclass_key_test_function_value_dictionary tests)
          (file_all test_module_name test_function_name tests ∅).
Proof.
  unfold generate_test_moduleclass_key_test_function_value_dictionary.
  eapply returns_bind; [apply returns_print|].
  apply (for_each_returns id _
           (fun d t => file_under (test_module_name t) (test_function_name t) d)).
  intros d t _. unfold str, id.
  eapply returns_bind; [apply get_test_module_name_returns|].
  eapply returns_bind; [apply get_test_function_name_returns|].
  unfold file_under. destruct (d !! _); apply returns_ret.
Qed.

Example dictionary_of_four_tests :
  returns
    (generate_test_moduleclass_key_test_function_value_dictionary
       ["test_a (m.A)"; "test_b (m.B)"; "test_c (m.A)"; "test_a (m.A)"])
    {["m.A" := ["test_a"; "test_c"; "test_a"]; "m.B" := ["test_b"]]}.
Proof.
  eapply returns_eq; [apply generate_moduleclass_dictionary_returns|].
  by vm_compute.
Qed.

(** C2. [generate_test_moduleclass_key_test_function_value_dictionary]
    returns, for every list of test strings, a dictionary that stores
    under each key the function-name slices of exactly the inputs whose
    module-name slice is that key, in input order and with duplicates
    kept (and has no other key); the number of stored values is the length
    of the input. *)
Theorem moduleclass_dictionary_groups (tests : list string) :
  ∃ d, returns (generate_test_moduleclass_key_test_function_value_dictionary tests) d ∧
       (∀ k, d !! k =
             group (values_under test_module_name test_function_name k tests)) ∧
       total_values d = length tests.
Proof.
  exists (file_all test_module_name test_function_name tests ∅).
  split; [|split].
  - apply generate_moduleclass_dictionary_returns.
  - intros k. by rewrite file_all_lookup, lookup_empty.
  - by rewrite total_values_file_all.
Qed.

Lemma key_parts (key : string) :
  has_char "." key = true →
  key_module_name key = before_char "." key ∧
  key_class_name key = after_char "." key ∧
  before_char "." key +:+ "." +:+ after_char "." key = key.
Proof.
  intros Hdot. destruct (split_at_first "." key Hdot) as [Heq Hno].
  assert (Hfind : find key "." = Z.of_nat (String.length (before_char "." key))).
  { unfold find. rewrite Heq at 1. by rewrite find_from_first. }
  unfold key_module_name, key_class_name. rewrite Hfind. split; [|split].
  - rewrite Heq at 1. by apply slice_prefix.
  - rewrite Heq at 1.
    change (String "." (after_char "." key)) with ("." +:+ after_char "." key).
    rewrite <- app_assoc. apply slice_suffix. rewrite length_app. simpl. lia.
  - symmetry. exact Heq.
Qed.

Lemma values_under_dotted (keys : list string) (m : string) :
  (∀ k, k ∈ keys → has_char "." k = true) →
  values_under key_module_name key_rebuilt m keys =
  filter (fun k => before_char "." k = m) keys.
Proof.
  unfold values_under. induction keys as [|k keys IH]; intros Hdot; [done|].
  destruct (key_parts k) as (Hb & Ha & Hk); [apply Hdot; by left|].
  rewrite !filter_cons, Hb.
  destruct (decide (before_char "." k = m)).
  - cbn [map]. unfold key_rebuilt at 1, format_dot. rewrite Hb, Ha, Hk. f_equal.
    apply IH. intros k' Hk'. apply Hdot. by right.
  - apply IH. intros k' Hk'. apply Hdot. by right.
Qed.

Lemma generate_module_dictionary_returns (keys : list string) :
  returns (generate_test_module_key_test_moduleclass_value_dictionary keys)
          (file_all key_module_name key_rebuilt keys ∅).
Proof.
  unfold generate_test_module_key_test_moduleclass_value_dictionary.
  apply (for_each_returns id _
           (fun d k => file_under (key_module_name k) (key_rebuilt k) d)).
  intros d k _. unfold id, file_under. simpl.
  fold (key_module_name k). fold (key_class_name k). fold (key_rebuilt k).
  destruct (d !! _); apply returns_ret.
Qed.

(** A key without a ["."] is outside C8: [find] answers [-1], the module
    part is the key without its last character and the class part is the
    whole key. *)
Example key_without_dot :
  returns
    (generate_test_module_key_test_moduleclass_value_dictionary ["ab.C"; "abx"])
    {["ab" := ["ab.C"; "ab.abx"]]}.
Proof.
  eapply returns_eq; [apply generate_module_dictionary_returns|].
  by vm_compute.
Qed.

(** C8. On a key with a ["."], [_get_test_module_name_from_key] returns
    the part before the first ["."] and [_get_test_class_name_from_key]
    the part after it, and joining them with ["."] gives the key back.
    Hence, on a list of such keys,
    [generate_test_module_key_test_moduleclass_value_dictionary] stores
    under the module part of each key the original keys with that module
    part, in order. *)
Theorem module_dictionary_keeps_keys :
  (∀ key, has_char "." key = true →
     returns (_get_test_module_name_from_key key) (before_char "." key) ∧
     returns (_get_test_class_name_from_key key) (after_char "." key) ∧
     before_char "." key +:+ "." +:+ after_char "." key = key) ∧
  (∀ keys, (∀ k, k ∈ keys → has_char "." k = true) →
     ∃ d, returns (generate_test_module_key_test_moduleclass_value_dictionary keys) d ∧
          ∀ k, k ∈ keys →
               d !! before_char "." k =
               Some (filter (fun k' => before_char "." k' = before_char "." k) keys)).
Proof.
  split.
  - intros key Hdot. destruct (key_parts key Hdot) as (Hb & Ha & Hk).
    split; [|split; [|done]].
    + eapply returns_eq; [apply returns_ret | exact Hb].
    + eapply returns_eq; [apply returns_ret | exact Ha].
  - intros keys Hdot. exists (file_all key_module_name key_rebuilt keys ∅). split.
    + apply generate_module_dictionary_returns.
    + intros k Hk.
      rewrite file_all_lookup, lookup_empty, values_under_dotted by done.
      apply group_elem_of with k. by apply list_elem_of_filter.
Qed.

Lemma module_dictionary_keeps_keys_witness :
  (returns (_get_test_module_name_from_key "mod_a.ClassA")
           (before_char "." "mod_a.ClassA") ∧
   returns (_get_test_class_name_from_key "mod_a.ClassA")
           (after_char "." "mod_a.ClassA") ∧
   before_char "." "mod_a.ClassA" +:+ "." +:+ after_char "." "mod_a.ClassA" =
   "mod_a.ClassA") ∧
  ∃ d, returns (generate_test_module_key_test_moduleclass_value_dictionary
                  ["mod_a.ClassA"; "mod_b.ClassB"; "mod_a.ClassC"]) d ∧
       ∀ k, k ∈ ["mod_a.ClassA"; "mod_b.ClassB"; "mod_a.ClassC"] →
            d !! before_char "." k =
            Some (filter (fun k' => before_char "." k' = before_char "." k)
                    ["mod_a.ClassA"; "mod_b.ClassB"; "mod_a.ClassC"]).
Proof.
  destruct module_dictionary_keeps_keys as [Hkey Hdict]. split.
  - apply Hkey. reflexivity.
  - apply Hdict. intros k Hk.
    repeat (apply elem_of_cons in Hk as [->|Hk]; [reflexivity|]).
    by apply elem_of_nil in Hk.
Defined.
End Dictionaries.

(** ** Flattening the test tree *)

Section Flattening.

Lemma test_tree_ind (P : test → Prop) :
  (∀ id, P (TestCase id)) →
  (∀ tests, Forall P tests → P (TestSuite tests)) →
  ∀ t, P t.
Proof.
  intros Hcase Hsuite. fix IH 1. intros [id|tests]; [apply Hcase|].
  apply Hsuite. induction tests as [|t tests IHtests]; constructor.
  - apply IH.
  - apply IHtests.
Qed.

Lemma yielded_from (t : test) :
  (if _isnotsuite t then inr [t]
   else _generate_flat_list_of_test_module_function t) =
  inr (List.filter _isnotsuite (preorder t)).
Proof.
  induction t as [id|tests IH] using test_tree_ind; [done|].
  cbn [_isnotsuite preorder List.filter _generate_flat_list_of_test_module_function].
  induction IH as [|t tests Ht _ IHtests]; [done|].
  rewrite Ht, IHtests. cbn [flat_map]. by rewrite List.filter_app.
Qed.

Example flat_list_of_nested_suites :
  _generate_flat_list_of_test_module_function
    (TestSuite [TestCase "a";
                TestSuite [TestCase "b"; TestSuite []; TestCase "c"];
                TestCase "d"]) =
  inr [TestCase "a"; TestCase "b"; TestCase "c"; TestCase "d"].
Proof. reflexivity. Qed.

(** C5. On every suite, [_generate_flat_list_of_test_module_function]
    ends normally and yields exactly the nodes of the tree that are not
    suites, in depth-first left-to-right order; every yielded value is a
    test case of the tree, never a suite. *)
Theorem flat_list_is_leaves_in_order (tests : list test) :
  _generate_flat_list_of_test_module_function (TestSuite tests) =
    inr (List.filter _isnotsuite (preorder (TestSuite tests))) ∧
  ∀ t, t ∈ List.filter _isnotsuite (preorder (TestSuite tests)) →
       t ∈ preorder (TestSuite tests) ∧ ∃ id, t = TestCase id.
Proof.
  split; [apply (yielded_from (TestSuite tests))|].
  intros t [Hin Hleaf]%list_elem_of_In%List.filter_In. split.
  - by apply list_elem_of_In.
  - destruct t as [id|]; [by exists id | done].
Qed.

Lemma load_test_module_and_test_function_returns {W : Type} (h : handler W)
    (w : W) (test_dir : string) (tests : list test) :
  (h _ (LoaderDiscover test_dir "*.py") w).1 = inr (TestSuite tests) →
  result (run h (load_test_module_and_test_function test_dir) w) =
  inr (inr (List.filter _isnotsuite (preorder (TestSuite tests)))).
Proof.
  intros Hreply. unfold load_test_module_and_test_function, syscall. cbn.
  destruct (h _ (LoaderDiscover test_dir "*.py") w) as [reply w'].
  cbn in Hreply. subst reply. cbn [lift_reply bind run result].
  f_equal. apply (yielded_from (TestSuite tests)).
Qed.
End Flattening.

(** ** Writing the file and pushing it *)

Section Files.
Context `{encoder : TestEnvMatrixJsonEncoder}.

Lemma write_on_os (m : machine) (w : world) (path content : string) :
  run (os_handler m)
      (write_testsuite_testcase_json_data_structure_to_file path content) w =
  mkOutcome (inr tt)
    (set_files w (<[path := default "" (files w !! path) +:+ content]> (files w)))
    [Call (Open path "a");
     Call (FileWrite (mkFile path "a") content);
     Call (FileClose (mkFile path "a"))].
Proof.
  unfold write_testsuite_testcase_json_data_structure_to_file, with_open.
  cbn. unfold os_open. cbn.
  destruct (files w !! path) as [old|] eqn:Hold; cbn.
  - rewrite Hold. done.
  - rewrite lookup_insert_eq. cbn. by rewrite insert_insert_eq.
Qed.

(** C4. On a file that holds [old],
    [write_testsuite_testcase_json_data_structure_to_file] leaves the file
    holding [old] followed by [file_content]; what the file held is kept,
    and no other file changes. *)
Theorem write_appends_to_file (m : machine) (w : world)
    (file_path file_content old : string) :
  files w !! file_path = Some old →
  let o := run (os_handler m)
             (write_testsuite_testcase_json_data_structure_to_file
                file_path file_content) w in
  result o = inr tt ∧
  files (final o) !! file_path = Some (old +:+ file_content) ∧
  ∀ p, p ≠ file_path → files (final o) !! p = files w !! p.
Proof.
  intros Hold o. subst o. rewrite write_on_os. cbn. rewrite Hold. cbn.
  split; [done|]. split.
  - apply lookup_insert_eq.
  - intros p Hp. by rewrite lookup_insert_ne.
Qed.

Lemma write_appends_to_file_witness :
  let o := run (os_handler idle_machine)
             (write_testsuite_testcase_json_data_structure_to_file "log.json" "{}")
             (mkWorld [] {["log.json" := "[]"]}) in
  result o = inr tt ∧
  files (final o) !! "log.json" = Some "[]{}" ∧
  ∀ p, p ≠ "log.json" →
       files (final o) !! p = ({["log.json" := "[]"]} : gmap string string) !! p.
Proof.
  exact (write_appends_to_file idle_machine (mkWorld [] {["log.json" := "[]"]})
           "log.json" "{}" "[]" eq_refl).
Defined.
Lemma write_trace {W : Type} (h : handler W) (w : W) (path content : string) :
  writes_of (trace (run h
    (write_testsuite_testcase_json_data_structure_to_file path content) w)) =
  match (h _ (Open path "a") w).1 with
  | inr f => [(f, content)]
  | inl _ => []
  end.
Proof.
  unfold write_testsuite_testcase_json_data_structure_to_file, with_open.
  cbn. destruct (h _ (Open path "a") w) as [[e|f] w1]; cbn; [done|].
  destruct (h _ (FileWrite f content) w1) as [[e|n] w2]; cbn.
  - by destruct (h _ (FileClose f) w2) as [[e'|[]] w3].
  - by destruct (h _ (FileClose f) w2) as [[e'|[]] w3].
Qed.

(** C6. [generate_testsuite_testcase_json_data_structure] encodes the
    whole object into one string [doc]; writing [doc] with
    [write_testsuite_testcase_json_data_structure_to_file] opens the
    target in append mode, performs one [write] call, whose data is [doc],
    and closes the file. Whatever the environment answers, there is at
    most one [write] call and its data is [doc]. *)
Theorem one_document_one_write (l : list string)
    (d : gmap string (list string)) (path : string) :
  (∀ s, s ∈ l → is_Some (d !! s)) →
  ∃ doc,
    doc = start_encode (PDict (testsuite_object l d)) ∧
    returns (generate_testsuite_testcase_json_data_structure l d) doc ∧
    (∀ (m : machine) (w : world),
       trace (run (os_handler m)
                (write_testsuite_testcase_json_data_structure_to_file path doc) w) =
       [Call (Open path "a");
        Call (FileWrite (mkFile path "a") doc);
        Call (FileClose (mkFile path "a"))]) ∧
    (∀ (W : Type) (h : handler W) (w : W),
       let writes :=
         writes_of (trace (run h
           (write_testsuite_testcase_json_data_structure_to_file path doc) w)) in
       (length writes ≤ 1)%nat ∧ ∀ f data, (f, data) ∈ writes → data = doc).
Proof.
  intros Hkeys. eexists. split; [reflexivity|]. split; [|split].
  - unfold generate_testsuite_testcase_json_data_structure.
    eapply returns_bind; [|apply returns_ret].
    by apply create_testsuite_testcase_list_returns.
  - intros m w. by rewrite write_on_os.
  - intros W h w writes. subst writes. rewrite write_trace.
    destruct (h _ (Open path "a") w).1 as [e|f]; cbn.
    + split; [lia|]. by intros f data ?%elem_of_nil.
    + split; [lia|]. intros f' data Hin%list_elem_of_singleton. congruence.
Qed.


(** C7. [push_testsuite_testcase_json_file_to_git_repo] makes exactly
    one call, [subprocess.run] with the argument vector
    [['oe-git-archive', file_dir, '-g', git_repo]]; its result is the
    reply to that call, unchanged; the world it leaves is the one the
    command left, and it writes to no file itself. *)
Theorem push_runs_one_command {W : Type} (h : handler W) (w : W)
    (file_dir git_repo : string) :
  let command := SubprocessRun ["oe-git-archive"; file_dir; "-g"; git_repo] in
  let o := run h (push_testsuite_testcase_json_file_to_git_repo file_dir git_repo) w in
  trace o = [Call command] ∧
  result o = (h _ command w).1 ∧
  final o = (h _ command w).2 ∧
  writes_of (trace o) = [].
Proof.
  unfold push_testsuite_testcase_json_file_to_git_repo, syscall. cbn.
  by destruct (h _ (SubprocessRun _) w) as [[e|cp] w'].
Qed.
End Files.

Lemma one_document_one_write_witness :
  ∃ doc,
    doc = @start_encode blank_encoder
            (PDict (testsuite_object ["suite_a"] {["suite_a" := ["test_x"]]})) ∧
    returns (@generate_testsuite_testcase_json_data_structure blank_encoder
               ["suite_a"] {["suite_a" := ["test_x"]]}) doc ∧
    (∀ (m : machine) (w : world),
       trace (run (os_handler m)
                (write_testsuite_testcase_json_data_structure_to_file
                   "log.json" doc) w) =
       [Call (Open "log.json" "a");
        Call (FileWrite (mkFile "log.json" "a") doc);
        Call (FileClose (mkFile "log.json" "a"))]) ∧
    (∀ (W : Type) (h : handler W) (w : W),
       let writes :=
         writes_of (trace (run h
           (write_testsuite_testcase_json_data_structure_to_file
              "log.json" doc) w)) in
       (length writes ≤ 1)%nat ∧ ∀ f data, (f, data) ∈ writes → data = doc).
Proof.
  apply (@one_document_one_write blank_encoder).
  intros s Hs. apply list_elem_of_singleton in Hs. subst s. by eexists.
Defined.

(** * Further properties *)

(** ** More on strings *)

Module PyMore.
Import PyFacts.

Lemma find_from_skip (c : ascii) (a s : string) (i : Z) :
  has_char c a = false →
  find_from (String c "") (a +:+ s) i =
  find_from (String c "") s (i + Z.of_nat (String.length a)).
Proof.
  revert i. induction a as [|x a IH]; intros i H.
  - change ("" +:+ s) with s. simpl. f_equal. lia.
  - simpl in H. rewrite app_cons. cbn [find_from]. rewrite prefix_char.
    destruct (Ascii.eqb x c); [done|]. rewrite IH by done.
    f_equal. cbn [String.length]. lia.
Qed.

Lemma find_from_bounds (c : ascii) (s : string) (i : Z) :
  has_char c s = true →
  i ≤ find_from (String c "") s i < i + Z.of_nat (String.length s).
Proof.
  revert i. induction s as [|x s IH]; intros i H; [done|].
  cbn [find_from]. rewrite prefix_char. simpl in H. cbn [String.length].
  destruct (Ascii.eqb x c); [lia|]. specialize (IH (i + 1) H). lia.
Qed.

Lemma substring_within (a b : string) (n : nat) :
  (n ≤ String.length a)%nat →
  String.substring 0 n (a +:+ b) = String.substring 0 n a.
Proof.
  revert n. induction a as [|x a IH]; intros n Hn.
  - simpl in Hn. replace n with 0%nat by lia. by rewrite !substring_zero.
  - destruct n as [|n]; [by rewrite !substring_zero|].
    rewrite app_cons. simpl. rewrite IH; [done|]. simpl in Hn. lia.
Qed.

Lemma slice_crossed (s : string) (lo hi : Z) :
  0 ≤ hi ≤ lo → slice s (Some lo) (Some hi) = "".
Proof.
  intros H. unfold slice, adjust_index.
  destruct (Z.ltb_spec lo 0), (Z.ltb_spec hi 0); try lia.
  set (len := Z.of_nat (String.length s)).
  replace (Z.to_nat (hi `min` len - lo `min` len)) with 0%nat by lia.
  apply substring_zero.
Qed.

End PyMore.

(** ** The name helpers away from the conventional form *)

Section NameEdges.
Import PyFacts PyMore.

Lemma find_char_after (c : ascii) (a b : string) :
  has_char c a = false →
  find (a +:+ String c b) (String c "") = Z.of_nat (String.length a).
Proof. intros H. unfold find. by rewrite find_from_first. Qed.

(** X1. Whatever character stands just before the first ["("], it is the
    one the function name loses: on [f +:+ "(" +:+ rest] with [f] not
    empty and free of ["("], [_get_test_function_name] returns [f]
    without its last character. *)
Theorem function_name_drops_char_before_paren (f rest : string) :
  has_char "(" f = false →
  f ≠ "" →
  returns (_get_test_function_name (f +:+ "(" +:+ rest)) (drop_last 1 f).
Proof.
  intros Hf Hne.
  eapply returns_eq; [apply get_test_function_name_returns|].
  unfold test_function_name.
  change (f +:+ "(" +:+ rest) with (f +:+ String "(" rest).
  rewrite find_char_after by done.
  assert (0 < String.length f)%nat by (destruct f; [done | simpl; lia]).
  unfold slice, drop_last. rewrite length_app.
  rewrite !adjust_index_in_range by lia.
  change (Z.to_nat 0) with 0%nat.
  replace (Z.to_nat _) with (String.length f - 1)%nat by lia.
  apply substring_within. lia.
Qed.

Lemma function_name_drops_char_before_paren_witness :
  returns (_get_test_function_name ("test_a" +:+ "(" +:+ "mod.Cls)"))
          (drop_last 1 "test_a").
Proof. by apply function_name_drops_char_before_paren. Defined.

(** X2. On a string that starts with ["("], [find] answers 0, the stop
    index is [-1], and [_get_test_function_name] returns the whole string
    without its last character. *)
Theorem function_name_wraps_at_leading_paren (rest : string) :
  returns (_get_test_function_name ("(" +:+ rest))
          (drop_last 1 ("(" +:+ rest)).
Proof.
  eapply returns_eq; [apply get_test_function_name_returns|].
  unfold test_function_name.
  change ("(" +:+ rest) with ("" +:+ String "(" rest) at 2.
  rewrite find_char_after by done.
  change (Z.of_nat (String.length "") - 1) with (- Z.of_nat 1).
  apply slice_drop_last. lia.
Qed.

(** X3. Between the parentheses: on [f +:+ "(" +:+ m +:+ ")" +:+ tail],
    with no parenthesis in [f] and no [")"] in [m],
    [_get_test_module_name] returns [m]; a space before ["("] is not
    needed, [m] may hold ["("], and text may follow the [")"]. *)
Theorem module_name_between_parens (f m tail : string) :
  has_char "(" f = false →
  has_char ")" f = false →
  has_char ")" m = false →
  returns (_get_test_module_name (f +:+ "(" +:+ m +:+ ")" +:+ tail)) m.
Proof.
  intros Hf1 Hf2 Hm.
  eapply returns_eq; [apply get_test_module_name_returns|].
  unfold test_module_name.
  replace (find (f +:+ "(" +:+ m +:+ ")" +:+ tail) "(")
    with (Z.of_nat (String.length f))
    by (symmetry; by apply (find_char_after "(" f (m +:+ ")" +:+ tail))).
  replace (find (f +:+ "(" +:+ m +:+ ")" +:+ tail) ")")
    with (Z.of_nat (String.length (f +:+ "(" +:+ m))).
  - replace (f +:+ "(" +:+ m +:+ ")" +:+ tail)
      with ((f +:+ "(") +:+ m +:+ ")" +:+ tail) by (by rewrite !app_assoc).
    apply slice_middle; rewrite !length_app; simpl; lia.
  - symmetry.
    replace (f +:+ "(" +:+ m +:+ ")" +:+ tail)
      with ((f +:+ "(" +:+ m) +:+ String ")" tail) by (by rewrite !app_assoc).
    apply find_char_after. by rewrite !has_char_app, Hf2, Hm.
Qed.

Lemma module_name_between_parens_witness :
  returns (_get_test_module_name ("test_a" +:+ "(" +:+ "mod.f(x" +:+ ")" +:+ " tail"))
          "mod.f(x".
Proof. by apply module_name_between_parens. Defined.

(** X4. When a [")"] comes before the first ["("], the slice bounds
    cross and [_get_test_module_name] returns the empty string. *)
Theorem module_name_empty_when_close_first (a b : string) :
  has_char "(" a = false →
  has_char ")" a = false →
  has_char "(" b = true →
  returns (_get_test_module_name (a +:+ ")" +:+ b)) "".
Proof.
  intros Ha1 Ha2 Hb.
  eapply returns_eq; [apply get_test_module_name_returns|].
  unfold test_module_name.
  replace (find (a +:+ ")" +:+ b) ")") with (Z.of_nat (String.length a))
    by (symmetry; by apply (find_char_after ")" a b)).
  assert (Hopen : Z.of_nat (String.length a) < find (a +:+ ")" +:+ b) "(").
  { unfold find. rewrite find_from_skip by done.
    change (")" +:+ b) with (String ")" b). cbn [find_from].
    rewrite prefix_char. change (Ascii.eqb ")" "(") with false. cbv iota.
    pose proof (find_from_bounds "(" b (0 + Z.of_nat (String.length a) + 1) Hb).
    lia. }
  apply slice_crossed. lia.
Qed.

Lemma module_name_empty_when_close_first_witness :
  returns (_get_test_module_name ("a" +:+ ")" +:+ "b (m.C)")) "".
Proof. by apply module_name_empty_when_close_first. Defined.

(** X5. With a ["("] and no [")"] at all, the stop index is [-1]:
    [_get_test_module_name] returns what follows the first ["("], without
    its last character. *)
Theorem module_name_unclosed (f rest : string) :
  has_char "(" f = false →
  has_char ")" f = false →
  has_char ")" rest = false →
  returns (_get_test_module_name (f +:+ "(" +:+ rest)) (drop_last 1 rest).
Proof.
  intros Hf1 Hf2 Hrest.
  eapply returns_eq; [apply get_test_module_name_returns|].
  unfold test_module_name.
  replace (find (f +:+ "(" +:+ rest) "(") with (Z.of_nat (String.length f))
    by (symmetry; by apply (find_char_after "(" f rest)).
  replace (find (f +:+ "(" +:+ rest) ")") with (-1).
  - replace (f +:+ "(" +:+ rest) with ((f +:+ "(") +:+ rest)
      by (by rewrite app_assoc).
    unfold slice, drop_last, adjust_index. rewrite !length_app.
    change (String.length "(") with 1%nat. change (-1 <? 0) with true. cbv iota.
    destruct (Z.ltb_spec (Z.of_nat (String.length f) + 1) 0); [lia|].
    replace (Z.to_nat _) with (String.length f + 1 + 0)%nat at 1 by lia.
    replace (String.length f + 1)%nat with (String.length (f +:+ "("))
      by (by rewrite length_app).
    rewrite substring_skip. f_equal. rewrite length_app. simpl. lia.
  - symmetry. unfold find. apply find_from_absent.
    by rewrite !has_char_app, Hf2, Hrest.
Qed.

Lemma module_name_unclosed_witness :
  returns (_get_test_module_name ("test_a " +:+ "(" +:+ "mod.Cls")) (drop_last 1 "mod.Cls").
Proof. by apply module_name_unclosed. Defined.
End NameEdges.

(** ** More on the dictionaries *)

Section DictionaryEdges.
Import PyFacts PyMore.

(** X6. On a key without ["."], [find] answers [-1]:
    [_get_test_module_name_from_key] returns the key without its last
    character, [_get_test_class_name_from_key] returns the whole key, and
    the dictionary files [key[:-1] + "." + key] under [key[:-1]]. *)
Theorem key_without_dot_parts (key : string) :
  has_char "." key = false →
  returns (_get_test_module_name_from_key key) (drop_last 1 key) ∧
  returns (_get_test_class_name_from_key key) key ∧
  returns (generate_test_module_key_test_moduleclass_value_dictionary [key])
          {[drop_last 1 key := [drop_last 1 key +:+ "." +:+ key]]}.
Proof.
  intros Hdot.
  assert (Hm : key_module_name key = drop_last 1 key).
  { unfold key_module_name, find. rewrite find_from_absent by done.
    change (-1) with (- Z.of_nat 1). apply slice_drop_last. lia. }
  assert (Hc : key_class_name key = key).
  { unfold key_class_name, find. rewrite find_from_absent by done.
    change (-1 + 1) with (Z.of_nat (String.length "")).
    by apply (slice_suffix "" key). }
  split; [|split].
  - eapply returns_eq; [apply returns_ret | exact Hm].
  - eapply returns_eq; [apply returns_ret | exact Hc].
  - eapply returns_eq; [apply generate_module_dictionary_returns|].
    cbn. unfold file_under, key_rebuilt, format_dot.
    rewrite lookup_empty, Hm, Hc. done.
Qed.

Lemma key_without_dot_parts_witness :
  returns (_get_test_module_name_from_key "abx") (drop_last 1 "abx") ∧
  returns (_get_test_class_name_from_key "abx") "abx" ∧
  returns (generate_test_module_key_test_moduleclass_value_dictionary ["abx"])
          {[drop_last 1 "abx" := [drop_last 1 "abx" +:+ "." +:+ "abx"]]}.
Proof. by apply key_without_dot_parts. Defined.

(** X7. For every list of keys, dotted or not,
    [generate_test_module_key_test_moduleclass_value_dictionary] stores
    one class name per key, in input order, under the key's module slice;
    every class name stored under a module [m] starts with [m] followed
    by ["."]; the number of stored class names is the length of the
    input. *)
Theorem module_dictionary_groups (keys : list string) :
  ∃ d, returns (generate_test_module_key_test_moduleclass_value_dictionary keys) d ∧
       (∀ m, d !! m = group (values_under key_module_name key_rebuilt m keys)) ∧
       (∀ m classes class_name,
          d !! m = Some classes → class_name ∈ classes →
          ∃ c, class_name = m +:+ "." +:+ c) ∧
       total_values d = length keys.
Proof.
  exists (file_all key_module_name key_rebuilt keys ∅).
  assert (Hlookup : ∀ m, file_all key_module_name key_rebuilt keys ∅ !! m =
                         group (values_under key_module_name key_rebuilt m keys))
    by (intros m; by rewrite file_all_lookup, lookup_empty).
  split; [apply generate_module_dictionary_returns|].
  split; [exact Hlookup|]. split.
  - intros m classes class_name Hm Hin. rewrite Hlookup in Hm.
    assert (Hvals : classes = values_under key_module_name key_rebuilt m keys).
    { destruct (values_under _ _ _ _); simpl in Hm; congruence. }
    subst classes. unfold values_under in Hin.
    apply list_elem_of_fmap in Hin as (k & -> & Hk).
    apply list_elem_of_filter in Hk as [<- _].
    by exists (key_class_name k).
  - by rewrite total_values_file_all.
Qed.

(** X8. The keys of the dictionary built by
    [generate_test_moduleclass_key_test_function_value_dictionary] are
    exactly the module-name slices of the input strings, and no key holds
    an empty list. *)
Theorem moduleclass_dictionary_keys (tests : list string) :
  ∃ d, returns (generate_test_moduleclass_key_test_function_value_dictionary tests) d ∧
       (∀ k, is_Some (d !! k) ↔ ∃ t, t ∈ tests ∧ test_module_name t = k) ∧
       (∀ k values, d !! k = Some values → values ≠ []).
Proof.
  exists (file_all test_module_name test_function_name tests ∅).
  assert (Hlookup : ∀ k, file_all test_module_name test_function_name tests ∅ !! k =
                         group (values_under test_module_name test_function_name k tests))
    by (intros k; by rewrite file_all_lookup, lookup_empty).
  split; [apply generate_moduleclass_dictionary_returns|]. split.
  - intros k. rewrite Hlookup. unfold values_under. split.
    + intros [values Hv].
      destruct (filter (λ t, test_module_name t = k) tests) as [|t ts] eqn:Hf;
        [done|].
      assert (Hin : t ∈ filter (λ t, test_module_name t = k) tests)
        by (rewrite Hf; by left).
      apply list_elem_of_filter in Hin as [Hk Hin]. by exists t.
    + intros (t & Hin & Hk).
      assert (Hf : t ∈ filter (λ t, test_module_name t = k) tests)
        by (by apply list_elem_of_filter).
      destruct (filter (λ t, test_module_name t = k) tests); [|by eexists].
      by apply elem_of_nil in Hf.
  - intros k values. rewrite Hlookup.
    destruct (values_under _ _ _ _); simpl; [done | congruence].
Qed.

Lemma values_under_app (K V : string → string) (k : string) (a b : list string) :
  values_under K V k (a ++ b) = values_under K V k a ++ values_under K V k b.
Proof. unfold values_under. by rewrite filter_app, map_app. Qed.

(** X9. Building the dictionary of two lists put end to end gives the
    dictionaries of the two lists merged: a key of both holds the values
    of the first list followed by those of the second. *)
Theorem moduleclass_dictionary_app (a b : list string) :
  ∃ da db,
    returns (generate_test_moduleclass_key_test_function_value_dictionary a) da ∧
    returns (generate_test_moduleclass_key_test_function_value_dictionary b) db ∧
    returns (generate_test_moduleclass_key_test_function_value_dictionary (a ++ b))
            (union_with (fun x y => Some (x ++ y)) da db).
Proof.
  exists (file_all test_module_name test_function_name a ∅),
         (file_all test_module_name test_function_name b ∅).
  split; [apply generate_moduleclass_dictionary_returns|].
  split; [apply generate_moduleclass_dictionary_returns|].
  eapply returns_eq; [apply generate_moduleclass_dictionary_returns|].
  apply map_eq. intros k.
  rewrite lookup_union_with, !file_all_lookup, !lookup_empty, values_under_app.
  destruct (values_under _ _ k a) as [|x xs], (values_under _ _ k b) as [|y ys];
    simpl; try done.
  by rewrite app_nil_r.
Qed.
End DictionaryEdges.

(** ** More on the test-suite object *)

Section RunMore.
Context {W : Type} (h : handler W).

Lemma trace_bind {A B : Type} (p : prog A) (f : A → prog B) (w : W) :
  trace (run h (bind p f) w) =
  match result (run h p w) with
  | inl e => trace (run h p w)
  | inr a => trace (run h p w) ++ trace (run h (f a) (final (run h p w)))
  end.
Proof.
  revert w. induction p as [a|e|X ev k IH]; intros w; simpl; [done..|].
  destruct (h X ev w) as [x w']. simpl. rewrite IH.
  by destruct (result (run h (k x) w')).
Qed.

Lemma final_bind {A B : Type} (p : prog A) (f : A → prog B) (w : W) :
  final (run h (bind p f) w) =
  match result (run h p w) with
  | inl e => final (run h p w)
  | inr a => final (run h (f a) (final (run h p w)))
  end.
Proof.
  revert w. induction p as [a|e|X ev k IH]; intros w; simpl; [done..|].
  destruct (h X ev w) as [x w']. simpl. apply IH.
Qed.
End RunMore.

Lemma raises_inj {A : Type} (p : prog A) (e1 e2 : exn) :
  raises p e1 → raises p e2 → e1 = e2.
Proof.
  intros H1 H2.
  specialize (H1 world (os_handler idle_machine) empty_world
                 (os_print_never_raised idle_machine _ _)).
  specialize (H2 world (os_handler idle_machine) empty_world
                 (os_print_never_raised idle_machine _ _)).
  congruence.
Qed.

Lemma silent_ret {A : Type} (a : A) : silent (Ret a).
Proof. by intros W h w. Qed.

Lemma silent_raise {A : Type} (e : exn) : silent (@Raise A e).
Proof. by intros W h w. Qed.

Lemma silent_bind {A B : Type} (p : prog A) (f : A → prog B) :
  silent p → (∀ a, silent (f a)) → silent (bind p f).
Proof.
  intros Hp Hf W h w. destruct (Hp W h w) as [Htr Hfin].
  rewrite trace_bind, final_bind, Htr, Hfin.
  destruct (result (run h p w)) as [e|a]; [done|]. apply Hf.
Qed.

Lemma silent_for_each {A S : Type} (body : S → A → prog S) (l : list A) (s : S) :
  (∀ s x, silent (body s x)) → silent (for_each l body s).
Proof.
  intros Hbody. revert s. induction l as [|x l IH]; intros s; simpl.
  - apply silent_ret.
  - apply silent_bind; [apply Hbody | apply IH].
Qed.

Lemma silent_getitem {V : Type} (d : gmap string V) (k : string) :
  silent (getitem d k).
Proof. unfold getitem. destruct (d !! k); [apply silent_ret | apply silent_raise]. Qed.

(** A silent program has no run in which a [print] raised: what it
    [returns] or [raises], it does in every environment. *)
Lemma silent_no_print_raised {A : Type} (p : prog A) :
  silent p → ∀ (W : Type) (h : handler W) (w : W), print_raised h p w = false.
Proof.
  intros Hsilent W h w. destruct (Hsilent W h w) as [Htr _].
  destruct p as [a|e|X ev k]; [done..|].
  cbn in Htr. by destruct (h X ev w).
Qed.

Lemma returns_in_every_run {A : Type} (p : prog A) (v : A) :
  silent p → returns p v →
  ∀ (W : Type) (h : handler W) (w : W), result (run h p w) = inr v.
Proof. intros Hsilent Hret W h w. by apply Hret, silent_no_print_raised. Qed.

Lemma raises_in_every_run {A : Type} (p : prog A) (e : exn) :
  silent p → raises p e →
  ∀ (W : Type) (h : handler W) (w : W), result (run h p w) = inl e.
Proof. intros Hsilent Hr W h w. by apply Hr, silent_no_print_raised. Qed.

Section StructureMore.
Context `{encoder : TestEnvMatrixJsonEncoder}.

(** X10. The [KeyError] names the first suite of the list, in list
    order, that the dictionary lacks, whatever comes after it. *)
Theorem keyerror_names_first_missing (l1 l2 : list string) (k : string)
    (d : gmap string (list string)) :
  (∀ s, s ∈ l1 → is_Some (d !! s)) →
  d !! k = None →
  raises (_create_testsuite_testcase_list (l1 ++ k :: l2) d) (KeyError k) ∧
  raises (generate_testsuite_testcase_json_data_structure (l1 ++ k :: l2) d)
         (KeyError k).
Proof.
  intros Hl1 Hk.
  pose proof (create_testsuite_testcase_list_raises l1 l2 k d Hl1 Hk) as H.
  split; [exact H|]. by apply raises_bind_l.
Qed.

Lemma testsuite_object_ext (l : list string) (d1 d2 : gmap string (list string)) :
  (∀ s, s ∈ l → d1 !! s = d2 !! s) →
  testsuite_object l d1 = testsuite_object l d2.
Proof.
  intros Hagree. unfold testsuite_object. do 2 f_equal.
  apply map_ext_in. intros s Hs%list_elem_of_In.
  unfold testsuite_entry. by rewrite (Hagree s Hs).
Qed.

(** X11. The outcome depends only on the dictionary entries of the
    listed suites: two dictionaries that agree on them give the same
    object, or the same [KeyError]. *)
Theorem structure_ignores_other_suites (l : list string)
    (d1 d2 : gmap string (list string)) :
  (∀ s, s ∈ l → d1 !! s = d2 !! s) →
  (∀ v, returns (_create_testsuite_testcase_list l d1) v →
        returns (_create_testsuite_testcase_list l d2) v) ∧
  (∀ e, raises (_create_testsuite_testcase_list l d1) e →
        raises (_create_testsuite_testcase_list l d2) e).
Proof.
  intros Hagree.
  destruct (first_missing l d1) as [Hall|(l1 & k & l2 & Hl & H1 & Hk)].
  - pose proof (create_testsuite_testcase_list_returns l d1 Hall) as Hret1.
    assert (Hret2 : returns (_create_testsuite_testcase_list l d2)
                            (testsuite_object l d1)).
    { rewrite (testsuite_object_ext l d1 d2 Hagree).
      apply create_testsuite_testcase_list_returns.
      intros s Hs. rewrite <- (Hagree s Hs). by apply Hall. }
    split.
    + intros v Hv. by rewrite (returns_inj _ _ _ Hv Hret1).
    + intros e He. destruct (returns_not_raises _ _ _ Hret1 He).
  - subst l.
    pose proof (create_testsuite_testcase_list_raises l1 l2 k d1 H1 Hk) as Hr1.
    assert (Hr2 : raises (_create_testsuite_testcase_list (l1 ++ k :: l2) d2)
                         (KeyError k)).
    { apply create_testsuite_testcase_list_raises.
      - intros s Hs. rewrite <- Hagree; [by apply H1|].
        apply elem_of_app. by left.
      - rewrite <- Hagree; [done|]. apply elem_of_app. right. by left. }
    split.
    + intros v Hv. destruct (returns_not_raises _ _ _ Hv Hr1).
    + intros e He. by rewrite (raises_inj _ _ _ He Hr1).
Qed.

(** X12. The dictionary built from a list of test strings can be handed
    to [_create_testsuite_testcase_list] with any list of suites taken
    from the module names of those strings: no [KeyError] is raised, and
    each suite lists, in input order, one test case per test string of
    that module, named [<module>.<function>]. *)
Theorem dictionary_feeds_structure (tests l : list string) :
  (∀ s, s ∈ l → ∃ t, t ∈ tests ∧ test_module_name t = s) →
  returns
    (d ← generate_test_moduleclass_key_test_function_value_dictionary tests;
     _create_testsuite_testcase_list l d)
    {[ "testsuite" :=
         PList (map (fun s =>
                       PDict {[ "testsuitename" := PStr s;
                                "testcase" :=
                                  PList (map (testcase_entry s)
                                           (values_under test_module_name
                                              test_function_name s tests)) ]})
                    l) ]}.
Proof.
  intros Hl.
  assert (Hlookup : ∀ k, file_all test_module_name test_function_name tests ∅ !! k =
                         group (values_under test_module_name test_function_name k tests))
    by (intros k; by rewrite file_all_lookup, lookup_empty).
  eapply returns_bind; [apply generate_moduleclass_dictionary_returns|].
  eapply returns_eq.
  - apply create_testsuite_testcase_list_returns.
    intros s Hs. destruct (Hl s Hs) as (t & Hin & Hk). rewrite Hlookup.
    assert (Hf : t ∈ filter (λ t, test_module_name t = s) tests)
      by (by apply list_elem_of_filter).
    unfold values_under.
    destruct (filter (λ t, test_module_name t = s) tests); [|by eexists].
    by apply elem_of_nil in Hf.
  - unfold testsuite_object. do 2 f_equal.
    apply map_ext_in. intros s _. unfold testsuite_entry. rewrite Hlookup.
    by destruct (values_under _ _ _ _).
Qed.

(** X13. Building the object, encoding it, and building the module
    dictionary call nothing: they print nothing, touch no file, run no
    command, and leave the world as it was, also when they raise. *)
Theorem structure_builders_are_silent (l keys : list string)
    (d : gmap string (list string)) :
  silent (_create_testsuite_testcase_list l d) ∧
  silent (generate_testsuite_testcase_json_data_structure l d) ∧
  silent (generate_test_module_key_test_moduleclass_value_dictionary keys).
Proof.
  assert (Hcreate : silent (_create_testsuite_testcase_list l d)).
  { apply silent_for_each. intros json s.
    apply silent_bind; [apply silent_getitem|]. intros fs.
    apply silent_bind.
    - apply silent_for_each. intros acc f. apply silent_ret.
    - intros cases. unfold getitem_append.
      apply silent_bind; [apply silent_getitem|].
      intros [?|?|?]; (apply silent_ret || apply silent_raise). }
  split; [exact Hcreate|]. split.
  - apply silent_bind; [exact Hcreate|]. intros obj. apply silent_ret.
  - apply silent_for_each. intros dict key. simpl.
    destruct (dict !! _); apply silent_ret.
Qed.
End StructureMore.

Lemma keyerror_names_first_missing_witness :
  raises (_create_testsuite_testcase_list (["suite_a"] ++ "suite_b" :: ["suite_c"])
            {["suite_a" := ["test_x"]]}) (KeyError "suite_b") ∧
  raises (@generate_testsuite_testcase_json_data_structure blank_encoder
            (["suite_a"] ++ "suite_b" :: ["suite_c"])
            {["suite_a" := ["test_x"]]}) (KeyError "suite_b").
Proof.
  apply (@keyerror_names_first_missing blank_encoder); [|reflexivity].
  intros s Hs. apply list_elem_of_singleton in Hs. subst s. by eexists.
Defined.

Lemma structure_ignores_other_suites_witness :
  (∀ v, returns (_create_testsuite_testcase_list ["suite_a"]
                   {["suite_a" := ["test_x"]]}) v →
        returns (_create_testsuite_testcase_list ["suite_a"]
                   {["suite_a" := ["test_x"]; "suite_z" := ["test_y"]]}) v) ∧
  (∀ e, raises (_create_testsuite_testcase_list ["suite_a"]
                  {["suite_a" := ["test_x"]]}) e →
        raises (_create_testsuite_testcase_list ["suite_a"]
                  {["suite_a" := ["test_x"]; "suite_z" := ["test_y"]]}) e).
Proof.
  apply structure_ignores_other_suites.
  intros s Hs. apply list_elem_of_singleton in Hs. subst s. reflexivity.
Defined.

Lemma dictionary_feeds_structure_witness :
  returns
    (d ← generate_test_moduleclass_key_test_function_value_dictionary
           ["test_a (m.A)"; "test_b (m.B)"; "test_c (m.A)"];
     _create_testsuite_testcase_list ["m.A"] d)
    {[ "testsuite" :=
         PList (map (fun s =>
                       PDict {[ "testsuitename" := PStr s;
                                "testcase" :=
                                  PList (map (testcase_entry s)
                                           (values_under test_module_name
                                              test_function_name s
                                              ["test_a (m.A)"; "test_b (m.B)";
                                               "test_c (m.A)"])) ]})
                    ["m.A"]) ]}.
Proof.
  apply dictionary_feeds_structure.
  intros s Hs. apply list_elem_of_singleton in Hs. subst s.
  exists "test_a (m.A)". split; [by left | reflexivity].
Defined.

(** ** More on flattening and loading *)

Section FlatteningMore.

Lemma flat_list_of_suite (tests : list test) :
  _generate_flat_list_of_test_module_function (TestSuite tests) =
  inr (List.filter _isnotsuite (flat_map preorder tests)).
Proof. apply (yielded_from (TestSuite tests)). Qed.

Lemma filter_leaves (l : list test) :
  Forall (fun t => _isnotsuite t = true) l →
  List.filter _isnotsuite (flat_map preorder l) = l.
Proof.
  induction 1 as [|t l Ht _ IH]; [done|].
  destruct t as [id|]; [|done]. cbn. by rewrite IH.
Qed.

(** X14. Flattening is idempotent: the suite made of the test cases
    that were yielded flattens to the same list. *)
Theorem flat_list_idempotent (tests leaves : list test) :
  _generate_flat_list_of_test_module_function (TestSuite tests) = inr leaves →
  _generate_flat_list_of_test_module_function (TestSuite leaves) = inr leaves.
Proof.
  rewrite !flat_list_of_suite. intros [= <-]. f_equal.
  apply filter_leaves. apply List.Forall_forall.
  intros t [_ Ht]%List.filter_In. exact Ht.
Qed.

Lemma flat_list_idempotent_witness :
  _generate_flat_list_of_test_module_function
    (TestSuite [TestCase "a"; TestCase "b"]) =
  inr [TestCase "a"; TestCase "b"].
Proof.
  apply (flat_list_idempotent
           [TestSuite [TestCase "a"; TestSuite []]; TestCase "b"]).
  reflexivity.
Defined.

(** X15. How suites are grouped does not matter: the flat list of a
    suite holding the tests of [a] followed by those of [b] is the flat
    list of [a] followed by that of [b], and it is also the flat list of
    the suite of the two sub-suites. *)
Theorem flat_list_regroup (a b : list test) :
  ∃ la lb,
    _generate_flat_list_of_test_module_function (TestSuite a) = inr la ∧
    _generate_flat_list_of_test_module_function (TestSuite b) = inr lb ∧
    _generate_flat_list_of_test_module_function (TestSuite (a ++ b)) =
      inr (la ++ lb) ∧
    _generate_flat_list_of_test_module_function
      (TestSuite [TestSuite a; TestSuite b]) = inr (la ++ lb).
Proof.
  exists (List.filter _isnotsuite (flat_map preorder a)),
         (List.filter _isnotsuite (flat_map preorder b)).
  rewrite !flat_list_of_suite. repeat split.
  - by rewrite flat_map_app, List.filter_app.
  - cbn [flat_map preorder]. rewrite app_nil_r.
    cbn [List.filter _isnotsuite app]. rewrite List.filter_app.
    by cbn [List.filter _isnotsuite].
Qed.

(** X16. [load_test_module_and_test_function] makes one call, the
    discovery from [test_dir] with pattern ['*.py']. When discovery
    answers with a suite, the result is the flat list of its test cases in
    depth-first order; when discovery raises, that exception is raised and
    nothing is flattened. *)
Theorem load_flattens_discovered_suite {W : Type} (h : handler W) (w : W)
    (test_dir : string) :
  let o := run h (load_test_module_and_test_function test_dir) w in
  trace o = [Call (LoaderDiscover test_dir "*.py")] ∧
  final o = (h _ (LoaderDiscover test_dir "*.py") w).2 ∧
  result o =
    match (h _ (LoaderDiscover test_dir "*.py") w).1 with
    | inl e => inl e
    | inr (TestSuite tests) =>
        inr (inr (List.filter _isnotsuite (preorder (TestSuite tests))))
    | inr (TestCase id) => inr (inl (TypeError "object is not iterable"))
    end.
Proof.
  unfold load_test_module_and_test_function, syscall. cbn.
  destruct (h _ (LoaderDiscover test_dir "*.py") w) as [[e|[id|tests]] w'];
    cbn; try done.
  repeat split. do 2 f_equal. apply (flat_list_of_suite tests).
Qed.
End FlatteningMore.

(** ** More on writing *)

Section FilesMore.
Import PyFacts.

(** X17. On a path that names no file,
    [write_testsuite_testcase_json_data_structure_to_file] creates the file
    holding exactly [file_content]; no other file changes. *)
Theorem write_creates_missing_file (m : machine) (w : world)
    (file_path file_content : string) :
  files w !! file_path = None →
  let o := run (os_handler m)
             (write_testsuite_testcase_json_data_structure_to_file
                file_path file_content) w in
  result o = inr tt ∧
  files (final o) !! file_path = Some file_content ∧
  ∀ p, p ≠ file_path → files (final o) !! p = files w !! p.
Proof.
  intros Hnone o. subst o. rewrite write_on_os. cbn. rewrite Hnone. cbn.
  split; [done|]. split.
  - apply lookup_insert_eq.
  - intros p Hp. by rewrite lookup_insert_ne.
Qed.

Lemma write_creates_missing_file_witness :
  let o := run (os_handler idle_machine)
             (write_testsuite_testcase_json_data_structure_to_file "log.json" "{}")
             empty_world in
  result o = inr tt ∧
  files (final o) !! "log.json" = Some "{}" ∧
  ∀ p, p ≠ "log.json" → files (final o) !! p = files empty_world !! p.
Proof.
  exact (write_creates_missing_file idle_machine empty_world "log.json" "{}"
           eq_refl).
Defined.

(** X18. Two calls in a row leave every file as one call with the two
    contents joined would: the file grows by the first content and then
    by the second. *)
Theorem write_twice (m : machine) (w : world) (file_path a b : string) :
  let twice :=
    run (os_handler m)
      (_ ← write_testsuite_testcase_json_data_structure_to_file file_path a;
       write_testsuite_testcase_json_data_structure_to_file file_path b) w in
  let once :=
    run (os_handler m)
      (write_testsuite_testcase_json_data_structure_to_file file_path (a +:+ b))
      w in
  result twice = inr tt ∧ final twice = final once.
Proof.
  intros twice once. subst twice once.
  change (mbind ?f ?p) with (bind p f).
  rewrite result_bind, final_bind, !write_on_os. cbn.
  split; [done|]. unfold set_files. cbn. f_equal.
  rewrite lookup_insert_eq. cbn. by rewrite insert_insert_eq, app_assoc.
Qed.

(** X19. The file is closed on every path: once [open] has answered
    with a file, the calls are [open], one [write] and one [close] on that
    file, also when [write] raises. When [open] raises, nothing is written or
    closed. An exception of [open], of [close], or else of [write], is the
    exception raised. *)
Theorem write_always_closes {W : Type} (h : handler W) (w : W)
    (file_path file_content : string) :
  let o := run h (write_testsuite_testcase_json_data_structure_to_file
                    file_path file_content) w in
  let opened := h _ (Open file_path "a") w in
  match opened.1 with
  | inl e => trace o = [Call (Open file_path "a")] ∧ result o = inl e
  | inr f =>
      let wrote := h _ (FileWrite f file_content) opened.2 in
      let closed := h _ (FileClose f) wrote.2 in
      trace o = [Call (Open file_path "a");
                 Call (FileWrite f file_content);
                 Call (FileClose f)] ∧
      final o = closed.2 ∧
      result o = match closed.1, wrote.1 with
                 | inl e, _ => inl e
                 | inr _, inl e => inl e
                 | inr _, inr _ => inr tt
                 end
  end.
Proof.
  unfold write_testsuite_testcase_json_data_structure_to_file, with_open.
  cbn. destruct (h _ (Open file_path "a") w) as [[e|f] w1]; cbn; [done|].
  destruct (h _ (FileWrite f file_content) w1) as [[e|n] w2]; cbn.
  - by destruct (h _ (FileClose f) w2) as [[e'|[]] w3].
  - by destruct (h _ (FileClose f) w2) as [[e'|[]] w3].
Qed.
End FilesMore.

(** ** What the dictionary builder prints *)

Section Printing.

Lemma prints_ret {A : Type} (a : A) : prints (Ret a) [].
Proof. by intros W h w _. Qed.

Lemma prints_print (line : string) : prints (syscall (Print line)) [line].
Proof.
  intros W h w. unfold syscall. cbn.
  by destruct (h _ (Print line) w) as [[e|[]] w'].
Qed.

Lemma prints_bind {A B : Type} (p : prog A) (f : A → prog B) (a : A)
    (l1 l2 : list string) :
  returns p a → prints p l1 → prints (f a) l2 → prints (bind p f) (l1 ++ l2).
Proof.
  intros Hret Hp Hf W h w Hno. rewrite print_raised_bind in Hno.
  apply orb_false_elim in Hno as [Hno1 Hno2].
  rewrite trace_bind. rewrite (Hret W h w Hno1) in Hno2 |- *.
  by rewrite Hp, Hf, map_app.
Qed.

Lemma prints_for_each {A S T : Type} (mk : T → S) (body : S → A → prog S)
    (g : T → A → T) (lines : A → list string) (l : list A) (t : T) :
  (∀ t x, returns (body (mk t) x) (mk (g t x)) ∧ prints (body (mk t) x) (lines x)) →
  prints (for_each l body (mk t)) (flat_map lines l).
Proof.
  intros Hbody. revert t. induction l as [|x l IH]; intros t; simpl.
  - apply prints_ret.
  - destruct (Hbody t x) as [Hret Hpr].
    by apply prints_bind with (mk (g t x)).
Qed.

Lemma get_test_module_name_prints (t : string) :
  prints (_get_test_module_name t) [format_debug "module" t (test_module_name t)].
Proof.
  apply (prints_bind _ _ tt [_] []);
    [apply returns_print | apply prints_print | apply prints_ret].
Qed.

Lemma get_test_function_name_prints (t : string) :
  prints (_get_test_function_name t)
         [format_debug "function" t (test_function_name t)].
Proof.
  apply (prints_bind _ _ tt [_] []);
    [apply returns_print | apply prints_print | apply prints_ret].
Qed.

Lemma os_final_of_prints {A : Type} (m : machine) (p : prog A) (w : world)
    (ls : list string) :
  trace (run (os_handler m) p w) = map (fun line => Call (Print line)) ls →
  final (run (os_handler m) p w) = mkWorld (stdout w ++ ls) (files w).
Proof.
  revert w ls. induction p as [a|e|X ev k IH]; intros w ls Htr.
  - destruct ls; [|done]. destruct w. cbn. by rewrite app_nil_r.
  - destruct ls; [|done]. destruct w. cbn. by rewrite app_nil_r.
  - cbn in Htr |- *.
    destruct (os_handler m X ev w) as [x w'] eqn:Hstep. cbn in Htr |- *.
    destruct ls as [|line ls]; [done|]. cbn in Htr.
    pose proof (f_equal (fun tr => match tr with
                                   | c :: _ => printed c
                                   | [] => None
                                   end) Htr) as Hline.
    pose proof (f_equal (@tail call) Htr) as Htail. cbn in Hline, Htail.
    destruct ev; cbn in Hline; try done.
    injection Hline as ->. cbn in Hstep. injection Hstep as <- <-.
    rewrite (IH (inr tt) _ ls Htail). cbn. by rewrite <- List.app_assoc.
Qed.

(** X20. For a list of test strings, and while [print] succeeds,
    [generate_test_moduleclass_key_test_function_value_dictionary] calls
    nothing but [print]: the start line, then for each string in order its
    module line and its function line. On the model of the operating
    system these lines are added to the standard output and no file
    changes. *)
Theorem moduleclass_dictionary_prints (tests : list string) :
  prints (generate_test_moduleclass_key_test_function_value_dictionary tests)
         (debug_lines tests) ∧
  ∀ (m : machine) (w : world),
    final (run (os_handler m)
             (generate_test_moduleclass_key_test_function_value_dictionary tests)
             w) =
    mkWorld (stdout w ++ debug_lines tests) (files w).
Proof.
  assert (Hprints : prints
            (generate_test_moduleclass_key_test_function_value_dictionary tests)
            (debug_lines tests)).
  { unfold generate_test_moduleclass_key_test_function_value_dictionary.
    apply (prints_bind _ _ tt [_] (flat_map debug_lines_of tests));
      [apply returns_print | apply prints_print |].
    apply (prints_for_each id _
             (fun d t => file_under (test_module_name t) (test_function_name t) d)).
    intros d t. unfold str, id. split.
    - eapply returns_bind; [apply get_test_module_name_returns|].
      eapply returns_bind; [apply get_test_function_name_returns|].
      unfold file_under. destruct (d !! _); apply returns_ret.
    - apply (prints_bind _ _ (test_module_name t) [_] [_]);
        [apply get_test_module_name_returns | apply get_test_module_name_prints|].
      apply (prints_bind _ _ (test_function_name t) [_] []);
        [apply get_test_function_name_returns
        | apply get_test_function_name_prints|].
      destruct (d !! _); apply prints_ret. }
  split; [exact Hprints|]. intros m w.
  apply os_final_of_prints, Hprints, os_print_never_raised.
Qed.
End Printing.
